(** * generate-large-csv.py: the synthetic transaction generator

    A shallow embedding of [generate_large_csv] and of the script's
    command-line entry point, with the properties of the written file, of
    the generated rows and of the progress output.

    Python's [int] is [Z]; Python's [float] is the kernel's binary64
    [float]; [str] is [string] (a sequence of bytes, UTF-8 for the few
    non-ASCII literals).  The open file, the standard output and the random
    source are threaded through an explicit state; a Python exception ends
    the run with the state reached so far. *)

From stdpp Require Import base option list gmap strings.
From Stdlib Require Import ZArith Ascii String Floats DecimalString DecimalN Lia.

Set Warnings "-inexact-float".
Set Default Proof Using "Type".
Local Open Scope Z_scope.

(* ================================================================= *)
(** ** Python numbers *)

Module PyNum.

(** The two numeric types the script computes with. *)
Inductive num : Type :=
| Int (z : Z)
| Float (f : float).

(** [float(z)]: the binary64 nearest to the integer [z] (ties to even).
    Python raises OverflowError above the binary64 range, where this
    model returns an infinity; the script stays far below it. *)
Definition Z2F (z : Z) : float :=
  SF2Prim (binary_normalize prec emax z 0 false).

Definition to_float (a : num) : float :=
  match a with
  | Int z => Z2F z
  | Float f => f
  end.

(** [a * b] and [a - b] with Python's numeric coercion: an operation on
    two ints is exact, any other is done on binary64 values. *)
Definition mul (a b : num) : num :=
  match a, b with
  | Int x, Int y => Int (x * y)
  | _, _ => Float (to_float a * to_float b)
  end.

Definition sub (a b : num) : num :=
  match a, b with
  | Int x, Int y => Int (x - y)
  | _, _ => Float (to_float a - to_float b)
  end.

(** The binary64 nearest to the exact quotient [a / b] of two integers
    (ties to even), for [b] other than zero.  A quotient beyond the
    binary64 range is an infinity here, an OverflowError in Python. *)
Definition div_int (a b : Z) : float :=
  match a, b with
  | Z0, _ => 0%float
  | _, Z0 => nan
  | _, _ =>
      SF2Prim (SFdiv prec emax
                 (S754_finite (a <? 0) (Z.to_pos (Z.abs a)) 0)
                 (S754_finite (b <? 0) (Z.to_pos (Z.abs b)) 0))
  end.

(** [a / b], true division: the correctly rounded quotient on two ints, the
    binary64 division otherwise.  A zero divisor raises in Python; the
    script divides by the row count inside the loop, where it is at
    least 1. *)
Definition truediv (a b : num) : float :=
  match a, b with
  | Int x, Int y => div_int x y
  | _, _ => (to_float a / to_float b)%float
  end.

(** The quotient [n / d] rounded to the nearest integer, ties to the even
    one ([d] positive). *)
Definition round_half_even (n d : Z) : Z :=
  let fl := n `div` d in
  match (2 * (n `mod` d)) ?= d with
  | Lt => fl
  | Gt => fl + 1
  | Eq => if Z.even fl then fl else fl + 1
  end.

(** The exact value of [|x| * scale] for a finite non-zero [x], rounded
    half-even to an integer. *)
Definition scaled_round (m : positive) (e : Z) (scale : Z) : Z :=
  if 0 <=? e
  then Z.pos m * 2 ^ e * scale
  else round_half_even (Z.pos m * scale) (2 ^ (- e)).

(** [round(x, ndigits)] on a float, for [ndigits >= 0]: CPython prints the
    exact binary value with [ndigits] decimals, correctly rounded (ties
    to even), and reads the decimal back as the nearest binary64.  Zeros,
    infinities, nans and the floats that are whole numbers are returned as
    they are. *)
Definition round_float (x : float) (ndigits : Z) : float :=
  match Prim2SF x with
  | S754_finite s m e =>
      if 0 <=? e then x
      else
        let scale := 10 ^ ndigits in
        let r := div_int (scaled_round m e scale) scale in
        if s then (- r)%float else r
  | _ => x
  end.

(** [round(a, ndigits)]: an int is returned unchanged for
    [ndigits >= 0]. *)
Definition round (a : num) (ndigits : Z) : num :=
  match a with
  | Int z => Int z
  | Float f => Float (round_float f ndigits)
  end.

(** [x > y] on floats. *)
Definition gt (x y : float) : bool := (y <? x)%float.

End PyNum.

(* ================================================================= *)
(** ** String formatting *)

Module Fmt.

(** The decimal digits of a natural number, no leading zero. *)
Definition digits (n : N) : string :=
  NilZero.string_of_uint (N.to_uint n).

Fixpoint zeros (k : nat) : string :=
  match k with
  | O => EmptyString
  | S k' => String "0"%char (zeros k')
  end.

(** Left-pad with zeros up to [width] characters. *)
Definition zfill (width : nat) (s : string) : string :=
  zeros (width - String.length s) +:+ s.

(** The format spec [0{width}d]: sign-aware zero padding to a minimum
    width; longer numbers are printed in full. *)
Definition d0 (width : nat) (z : Z) : string :=
  if z <? 0
  then "-" +:+ zfill (width - 1) (digits (Z.abs_N z))
  else zfill width (digits (Z.abs_N z)).

(** [str(z)] on an int. *)
Definition int (z : Z) : string :=
  if z <? 0 then "-" +:+ digits (Z.abs_N z) else digits (Z.abs_N z).

(** Insert a comma before every group of three digits, counted from the
    right: [acc] holds the characters already placed, [k] the number of
    digits in the current group. *)
Fixpoint group3 (rev_digits : list ascii) (k : nat) (acc : string) : string :=
  match rev_digits with
  | [] => acc
  | c :: rest =>
      match k with
      | 3%nat => group3 rest 1 (String c (String ","%char acc))
      | _ => group3 rest (S k) (String c acc)
      end
  end.

(** The format spec [,] on an int: thousands separators. *)
Definition comma (z : Z) : string :=
  let body := group3 (rev (list_ascii_of_string (digits (Z.abs_N z)))) 0 EmptyString in
  if z <? 0 then "-" +:+ body else body.

(** The format spec [.0f] on a float: the nearest integer to the exact
    value (ties to even), without a decimal point. *)
Definition f0 (x : float) : string :=
  match Prim2SF x with
  | S754_zero s => if s then "-0" else "0"
  | S754_infinity s => if s then "-inf" else "inf"
  | S754_nan => "nan"
  | S754_finite s m e =>
      let body := digits (Z.to_N (PyNum.scaled_round m e 1)) in
      if s then "-" +:+ body else body
  end.

End Fmt.

(* ================================================================= *)
(** ** Dates: [datetime.datetime], [datetime.timedelta], [isoformat] *)

Module Datetime.

Record datetime : Type := mk_datetime
  { year : Z; month : Z; day : Z; hour : Z; minute : Z; second : Z }.

(** A duration, normalised to whole days and seconds in [0, 86400).
    The script never passes microseconds. *)
Record timedelta_t : Type := mk_timedelta { td_days : Z; td_seconds : Z }.

(** [timedelta(days=d, hours=h, minutes=m)] *)
Definition timedelta (d h m : Z) : timedelta_t :=
  let s := h * 3600 + m * 60 in
  mk_timedelta (d + s `div` 86400) (s `mod` 86400).

(** Days since 1970-01-01 of a date of the proleptic Gregorian calendar,
    and back. *)
Definition days_from_civil (y m d : Z) : Z :=
  let y' := if m <=? 2 then y - 1 else y in
  let era := y' `div` 400 in
  let yoe := y' - era * 400 in
  let mp := if 2 <? m then m - 3 else m + 9 in
  let doy := (153 * mp + 2) `div` 5 + d - 1 in
  let doe := yoe * 365 + yoe `div` 4 - yoe `div` 100 + doy in
  era * 146097 + doe - 719468.

Definition civil_from_days (z : Z) : Z * Z * Z :=
  let z' := z + 719468 in
  let era := z' `div` 146097 in
  let doe := z' - era * 146097 in
  let yoe := (doe - doe `div` 1460 + doe `div` 36524 - doe `div` 146096) `div` 365 in
  let doy := doe - (365 * yoe + yoe `div` 4 - yoe `div` 100) in
  let mp := (5 * doy + 2) `div` 153 in
  let d := doy - (153 * mp + 2) `div` 5 + 1 in
  let m := if mp <? 10 then mp + 3 else mp - 9 in
  let y := yoe + era * 400 in
  (if m <=? 2 then y + 1 else y, m, d).

(** [dt + delta].  Python raises OverflowError outside the years 1..9999;
    the script adds at most three years to 2020. *)
Definition add (dt : datetime) (delta : timedelta_t) : datetime :=
  let secs := hour dt * 3600 + minute dt * 60 + second dt + td_seconds delta in
  let days := days_from_civil (year dt) (month dt) (day dt)
              + td_days delta + secs `div` 86400 in
  let s := secs `mod` 86400 in
  let '(y, m, d) := civil_from_days days in
  mk_datetime y m d (s `div` 3600) ((s `mod` 3600) `div` 60) (s `mod` 60).

(** [dt.isoformat()] with no microseconds and no time zone. *)
Definition isoformat (dt : datetime) : string :=
  Fmt.d0 4 (year dt) +:+ "-" +:+ Fmt.d0 2 (month dt) +:+ "-" +:+ Fmt.d0 2 (day dt)
  +:+ "T" +:+ Fmt.d0 2 (hour dt) +:+ ":" +:+ Fmt.d0 2 (minute dt)
  +:+ ":" +:+ Fmt.d0 2 (second dt).

End Datetime.

(* ================================================================= *)
(** ** The [random] module *)

(** The random source the script draws from, as an interface.  [randbelow n]
    is the generator's integer draw below [n]; [random] is [random.random()]
    and [uniform a b] is [random.uniform(a, b)].  The two laws are the
    ranges the module documents: [0 <= randbelow(n) < n] for positive [n],
    and [a <= uniform(a, b) <= b] for [a <= b]. *)
Class RandomSource (G : Type) : Type := {
  randbelow : Z → G → Z * G;
  random : G → float * G;
  uniform : float → float → G → float * G;
  randbelow_range : ∀ n g, 0 < n → 0 ≤ (randbelow n g).1 < n;
  uniform_range : ∀ a b g,
    (a <=? b)%float = true →
    (a <=? (uniform a b g).1)%float && ((uniform a b g).1 <=? b)%float = true
}.

(** A concrete source: a tape of raw integers, one consumed by each draw (an
    exhausted tape keeps answering with 0).  Every finite sequence of
    integer draws the law allows is the answer of some tape. *)
Definition tape : Type := list Z.

Definition tape_next (t : tape) : Z * tape :=
  match t with
  | [] => (0, [])
  | w :: t' => (w, t')
  end.

Definition tape_randbelow (n : Z) (t : tape) : Z * tape :=
  ((tape_next t).1 `mod` n, (tape_next t).2).

(** 53 random bits scaled to [0, 1). *)
Definition tape_random (t : tape) : float * tape :=
  ((PyNum.Z2F ((tape_next t).1 `mod` 2 ^ 53) / 9007199254740992)%float,
   (tape_next t).2).

(** [a + (b - a) * random()], kept inside [a, b]. *)
Definition tape_uniform (a b : float) (t : tape) : float * tape :=
  let v := (a + (b - a) * (tape_random t).1)%float in
  (if (a <=? v)%float && (v <=? b)%float then v else a, (tape_random t).2).

(** The tape answers within the documented ranges. *)
Global Instance tape_source : RandomSource tape.
Proof.
  refine {| randbelow := tape_randbelow;
            random := tape_random;
            uniform := tape_uniform |}.
  - intros n g Hn. unfold tape_randbelow. simpl. apply Z.mod_pos_bound. exact Hn.
  - intros a b g Hab. unfold tape_uniform. cbn [fst].
    set (v := (a + (b - a) * (tape_random g).1)%float).
    destruct ((a <=? v)%float && (v <=? b)%float) eqn:Hin; [exact Hin|].
    rewrite Hab, andb_true_r.
    rewrite leb_spec in Hab |- *. unfold SFleb in *.
    destruct (Prim2SF a) as [sa|sa| |sa ma ea]; simpl in *;
      try discriminate; try reflexivity.
    + destruct sa; reflexivity.
    + destruct sa; rewrite Z.compare_refl, Pos.compare_cont_refl; reflexivity.
Defined.

(* ================================================================= *)
(** ** The world the script runs in *)

(** A value handed to [csv.writer.writerow]: the writer itself (quoting,
    delimiters, the text of a float) is outside the script. *)
Inductive cell : Type :=
| Str (s : string)
| Num (n : PyNum.num).

Definition row : Type := list cell.

(** What reaches standard output: a printed line, a flush, and the one line
    whose text depends on the byte size of the written file.  That size is
    a function of the bytes the writer produced, which are outside the
    script: [File_size_line] stands for the line whatever number it shows,
    and nothing is derived from two such events being equal. *)
Inductive event : Type :=
| Line (s : string)
| Flushed
| File_size_line (filename : string).

Inductive exn : Type :=
| ZeroDivisionError
| IndexError
| OSError.

Inductive res (A : Type) : Type :=
| Ok (a : A)
| Raise (e : exn).
Arguments Ok {A} a.
Arguments Raise {A} e.

(** The state: the random source, the files by path (each the list of rows
    written to it), which paths can be opened for writing, and the output
    so far.  A path is the name the script hands to [open]: two spellings
    of one file (a relative path, a link) are two keys here, so nothing is
    derived about the files a run leaves unchanged. *)
Record world (G : Type) : Type := mk_world {
  w_rng : G;
  w_fs : gmap string (list row);
  w_writable : string → bool;
  w_stdout : list event
}.
Arguments mk_world {G}.
Arguments w_rng {G}.
Arguments w_fs {G}.
Arguments w_writable {G}.
Arguments w_stdout {G}.

Definition set_rng {G} (g : G) (w : world G) : world G :=
  mk_world g (w_fs w) (w_writable w) (w_stdout w).
Definition set_fs {G} (fs : gmap string (list row)) (w : world G) : world G :=
  mk_world (w_rng w) fs (w_writable w) (w_stdout w).
Definition set_stdout {G} (out : list event) (w : world G) : world G :=
  mk_world (w_rng w) (w_fs w) (w_writable w) out.

(** A computation either returns or raises, and leaves a world. *)
Definition M (G A : Type) : Type := world G → res A * world G.

Global Instance M_ret {G} : MRet (M G) := λ A a w, (Ok a, w).
Global Instance M_bind {G} : MBind (M G) := λ A B f m w,
  match m w with
  | (Ok a, w') => f a w'
  | (Raise e, w') => (Raise e, w')
  end.

Definition raise {G A} (e : exn) : M G A := λ w, (Raise e, w).

(** The values one iteration of the loop computes, under the names of the
    script's local variables. *)
Module Txn.
Record t : Type := mk {
  transaction_id : string;
  timestamp : Datetime.datetime;
  customer_id : string;
  product_id : string;
  category : string;
  quantity : Z;
  unit_price : PyNum.num;
  discount : PyNum.num;
  total_amount : PyNum.num;
  payment_method : string;
  store_location : string;
  customer_age : Z;
  customer_segment : string;
  rating : cell;
  returned : string
}.

(** [discount_applied = discount] *)
Definition discount_applied (x : t) : PyNum.num := discount x.
End Txn.

Section Script.
Context {G : Type} `{RandomSource G}.

(** *** Library calls *)

Definition draw {A} (f : G → A * G) : M G A :=
  λ w, (Ok (f (w_rng w)).1, set_rng (f (w_rng w)).2 w).

(** [random.randint(a, b)] is [a + randbelow(b - a + 1)]. *)
Definition randint (a b : Z) : M G Z :=
  k ← draw (randbelow (b - a + 1)); mret (a + k).

(** [seq[k]]: a negative index counts from the end, an index outside the
    list raises IndexError. *)
Definition getitem {A} (seq : list A) (k : Z) : M G A :=
  let n := Z.of_nat (List.length seq) in
  match seq !! Z.to_nat (if 0 <=? k then k else n + k) with
  | Some x => if (- n <=? k) then mret x else raise IndexError
  | None => raise IndexError
  end.

(** [random.choice(seq)] is [seq[randbelow(len(seq))]]; an empty sequence
    raises IndexError. *)
Definition choice {A} (seq : list A) : M G A :=
  match seq with
  | [] => raise IndexError
  | _ => k ← draw (randbelow (Z.of_nat (List.length seq))); getitem seq k
  end.

(** [print(s)], on a standard output that accepts the text: a stream that
    is closed or cannot encode a line is outside the model. *)
Definition print (s : string) : M G () :=
  λ w, (Ok (), set_stdout (w_stdout w ++ [Line s]) w).

(** [sys.stdout.flush()] *)
Definition flush : M G () :=
  λ w, (Ok (), set_stdout (w_stdout w ++ [Flushed]) w).

(** [os.path.getsize(filename)] and the line printed from it. *)
Definition print_file_size (filename : string) : M G () :=
  λ w, (Ok (), set_stdout (w_stdout w ++ [File_size_line filename]) w).

(** [open(filename, 'w', newline='')]: the file is created or truncated.
    When the call fails, the exception it raises ends the computation; its
    class (OSError for a failure of the file system, ValueError for a name
    that holds a NUL character) is not told apart, [OSError] stands for
    it. *)
Definition open_w (filename : string) : M G () :=
  λ w, if w_writable w filename
       then (Ok (), set_fs (<[filename := []]> (w_fs w)) w)
       else (Raise OSError, w).

(** [writer.writerow(r)] on the file opened at [filename]. *)
Definition writerow (filename : string) (r : row) : M G () :=
  λ w, (Ok (), set_fs (alter (λ rows, rows ++ [r]) filename (w_fs w)) w).

(** [a % b] on ints. *)
Definition py_mod (a b : Z) : M G Z :=
  if b =? 0 then raise ZeroDivisionError else mret (a `mod` b).

(** [for i in range(n): body], from index [i]. *)
Fixpoint for_from (n : nat) (i : Z) (body : Z → M G ()) : M G () :=
  match n with
  | O => mret ()
  | S n' => body i ;; for_from n' (i + 1) body
  end.

Definition for_range (n : Z) (body : Z → M G ()) : M G () :=
  for_from (Z.to_nat n) 0 body.

(** *** [generate_large_csv] *)

Definition headers : list string :=
  [ "transaction_id"; "timestamp"; "customer_id"; "product_id";
    "category"; "quantity"; "unit_price"; "total_amount";
    "payment_method"; "store_location"; "discount_applied";
    "customer_age"; "customer_segment"; "rating"; "returned" ].

Definition categories : list string :=
  [ "Electronics"; "Clothing"; "Food"; "Home"; "Sports"; "Books"; "Toys"; "Beauty" ].
Definition payment_methods : list string :=
  [ "Credit Card"; "Debit Card"; "Cash"; "Mobile Payment"; "Gift Card" ].
Definition locations : list string :=
  [ "New York"; "Los Angeles"; "Chicago"; "Houston"; "Phoenix"; "Philadelphia" ].
Definition segments : list string :=
  [ "Regular"; "Silver"; "Gold"; "Platinum" ].

Definition start_date : Datetime.datetime :=
  Datetime.mk_datetime 2020 1 1 0 0 0.

(** The list the discount is chosen from. *)
Definition discount_choices : list PyNum.num :=
  [ PyNum.Int 0; PyNum.Int 0; PyNum.Int 0;
    PyNum.Float 0.1; PyNum.Float 0.15; PyNum.Float 0.2; PyNum.Float 0.25 ].

Definition returned_choices : list string :=
  [ "Yes"; "No"; "No"; "No"; "No" ].

(** The f-string [TXN{i+1:08d}]. *)
Definition format_transaction_id (i : Z) : string :=
  "TXN" +:+ Fmt.d0 8 (i + 1).

(** The body of the loop up to the call of [writerow], for row index
    [i]: every local variable the row is built from. *)
Definition gen_row (i : Z) : M G Txn.t :=
  let transaction_id := format_transaction_id i in
  days ← randint 0 1095;
  hours ← randint 0 23;
  minutes ← randint 0 59;
  let timestamp := Datetime.add start_date (Datetime.timedelta days hours minutes) in
  c ← randint 1 50000;
  let customer_id := "CUST" +:+ Fmt.d0 6 c in
  p ← randint 1 5000;
  let product_id := "PROD" +:+ Fmt.d0 5 p in
  category ← choice categories;
  quantity ← randint 1 10;
  u ← draw (uniform 5.99 999.99);
  let unit_price := PyNum.round (PyNum.Float u) 2 in
  discount ← choice discount_choices;
  let total_amount :=
    PyNum.round
      (PyNum.mul (PyNum.mul (PyNum.Int quantity) unit_price)
                 (PyNum.sub (PyNum.Int 1) discount)) 2 in
  payment_method ← choice payment_methods;
  store_location ← choice locations;
  customer_age ← randint 18 80;
  customer_segment ← choice segments;
  present ← draw random;
  rating ← (if PyNum.gt present 0.1
            then r ← draw (uniform 1 5); mret (Num (PyNum.round (PyNum.Float r) 1))
            else mret (Str EmptyString));
  returned ← choice returned_choices;
  mret (Txn.mk transaction_id timestamp customer_id product_id category
               quantity unit_price discount total_amount payment_method
               store_location customer_age customer_segment rating returned).

(** The list given to [writer.writerow] for a data row. *)
Definition row_of (x : Txn.t) : row :=
  [ Str (Txn.transaction_id x); Str (Datetime.isoformat (Txn.timestamp x));
    Str (Txn.customer_id x); Str (Txn.product_id x);
    Str (Txn.category x); Num (PyNum.Int (Txn.quantity x));
    Num (Txn.unit_price x); Num (Txn.total_amount x);
    Str (Txn.payment_method x); Str (Txn.store_location x);
    Num (Txn.discount_applied x);
    Num (PyNum.Int (Txn.customer_age x)); Str (Txn.customer_segment x);
    Txn.rating x; Str (Txn.returned x) ].

(** The progress line for [done] rows out of [num_rows]. *)
Definition progress_line (done num_rows : Z) : string :=
  let progress :=
    (PyNum.truediv (PyNum.Int done) (PyNum.Int num_rows) * PyNum.Z2F 100)%float in
  "Progress: " +:+ Fmt.f0 progress +:+ "% (" +:+ Fmt.comma done +:+ " rows)".

Definition loop_body (filename : string) (num_rows progress_interval i : Z) : M G () :=
  x ← gen_row i;
  writerow filename (row_of x) ;;
  m ← py_mod (i + 1) progress_interval;
  if m =? 0
  then print (progress_line (i + 1) num_rows) ;; flush
  else mret ().

Definition newline : string := String (ascii_of_nat 10) EmptyString.

Definition generate_large_csv (filename : string) (num_rows : Z) : M G () :=
  print ("Generating " +:+ Fmt.comma num_rows +:+ " rows of data...") ;;
  open_w filename ;;
  writerow filename (Str <$> headers) ;;
  let progress_interval := num_rows `div` 20 in
  for_range num_rows (loop_body filename num_rows progress_interval) ;;
  print (newline +:+ "✅ Generated " +:+ filename) ;;
  print_file_size filename ;;
  print ("📝 Columns: " +:+ Fmt.int (Z.of_nat (List.length headers))) ;;
  print ("📈 Rows: " +:+ Fmt.comma num_rows).

(** *** The entry point *)

Definition lower_ascii (c : ascii) : ascii :=
  let n := nat_of_ascii c in
  if (65 <=? n)%nat && (n <=? 90)%nat then ascii_of_nat (n + 32) else c.

(** [s.lower()], on the ASCII letters.  No other character lowers to an
    ASCII letter of the four selectors, so the comparisons of [main]
    are those of Python on every argument. *)
Fixpoint lower (s : string) : string :=
  match s with
  | EmptyString => EmptyString
  | String c s' => String (lower_ascii c) (lower s')
  end.

Definition usage : string :=
  "Usage: python generate-large-csv.py [small|medium|large|xlarge]".

(** The [__main__] block, on [sys.argv]. *)
Definition main (argv : list string) : M G () :=
  match argv with
  | _ :: arg :: _ =>
      let size := lower arg in
      if String.eqb size "small"
      then generate_large_csv "test-datasets/large/transactions-small.csv" 10000
      else if String.eqb size "medium"
      then generate_large_csv "test-datasets/large/transactions-medium.csv" 100000
      else if String.eqb size "large"
      then generate_large_csv "test-datasets/large/transactions-large.csv" 1000000
      else if String.eqb size "xlarge"
      then generate_large_csv "test-datasets/large/transactions-xlarge.csv" 5000000
      else print usage
  | _ =>
      generate_large_csv "test-datasets/large/transactions-medium.csv" 100000
  end.

End Script.

(* ================================================================= *)
(** ** Observations on a run *)

(** The position of a column name in a header. *)
Fixpoint index_of (name : string) (names : list string) : option nat :=
  match names with
  | [] => None
  | n :: rest => if String.eqb name n then Some O else S <$> index_of name rest
  end.

(** The cell of a written row under the column [name] of the header. *)
Definition field (name : string) (r : row) : option cell :=
  k ← index_of name headers; r !! k.

(** The local variable of the loop that bears the name of a column, as the
    value handed to the writer. *)
Definition value_of (name : string) (x : Txn.t) : option cell :=
  if String.eqb name "transaction_id" then Some (Str (Txn.transaction_id x))
  else if String.eqb name "timestamp" then Some (Str (Datetime.isoformat (Txn.timestamp x)))
  else if String.eqb name "customer_id" then Some (Str (Txn.customer_id x))
  else if String.eqb name "product_id" then Some (Str (Txn.product_id x))
  else if String.eqb name "category" then Some (Str (Txn.category x))
  else if String.eqb name "quantity" then Some (Num (PyNum.Int (Txn.quantity x)))
  else if String.eqb name "unit_price" then Some (Num (Txn.unit_price x))
  else if String.eqb name "total_amount" then Some (Num (Txn.total_amount x))
  else if String.eqb name "payment_method" then Some (Str (Txn.payment_method x))
  else if String.eqb name "store_location" then Some (Str (Txn.store_location x))
  else if String.eqb name "discount_applied" then Some (Num (Txn.discount_applied x))
  else if String.eqb name "customer_age" then Some (Num (PyNum.Int (Txn.customer_age x)))
  else if String.eqb name "customer_segment" then Some (Str (Txn.customer_segment x))
  else if String.eqb name "rating" then Some (Txn.rating x)
  else if String.eqb name "returned" then Some (Str (Txn.returned x))
  else None.

(** The rows of the file at [filename], and its data rows (all but the
    first). *)
Definition file_rows {G} (filename : string) (w : world G) : list row :=
  default [] (w_fs w !! filename).

Definition data_rows {G} (filename : string) (w : world G) : list row :=
  tail (file_rows filename w).

(** The files after more rows were written to the one at [filename]. *)
Definition append_rows (filename : string) (new : list row)
    (fs : gmap string (list row)) : gmap string (list row) :=
  alter (λ rows, rows ++ new) filename fs.

(** The files once [filename] is opened and the header row written. *)
Definition opened (filename : string) (fs : gmap string (list row)) :
    gmap string (list row) :=
  append_rows filename [Str <$> headers] (<[filename := []]> fs).

(** The first line printed. *)
Definition banner (num_rows : Z) : event :=
  Line ("Generating " +:+ Fmt.comma num_rows +:+ " rows of data...").

(** The sequence number a transaction id carries: the decimal number after
    the prefix TXN. *)
Definition txn_number (s : string) : option N :=
  match s with
  | String "T" (String "X" (String "N" ds)) => N.of_uint <$> NilEmpty.uint_of_string ds
  | _ => None
  end.

(** The number a string of decimal digits denotes, read from the left with
    [acc] the value of the digits already read. *)
Fixpoint decimal_value (acc : N) (d : Decimal.uint) : N :=
  match d with
  | Decimal.Nil => acc
  | Decimal.D0 l => decimal_value (10 * acc) l
  | Decimal.D1 l => decimal_value (10 * acc + 1) l
  | Decimal.D2 l => decimal_value (10 * acc + 2) l
  | Decimal.D3 l => decimal_value (10 * acc + 3) l
  | Decimal.D4 l => decimal_value (10 * acc + 4) l
  | Decimal.D5 l => decimal_value (10 * acc + 5) l
  | Decimal.D6 l => decimal_value (10 * acc + 6) l
  | Decimal.D7 l => decimal_value (10 * acc + 7) l
  | Decimal.D8 l => decimal_value (10 * acc + 8) l
  | Decimal.D9 l => decimal_value (10 * acc + 9) l
  end%N.

(** A float within the price bounds of the script, by Python's [<=]. *)
Definition price_in_range (p : float) : bool :=
  (5.99 <=? p)%float && (p <=? 999.99)%float.

Definition no_discount (d : PyNum.num) : bool :=
  match d with
  | PyNum.Int 0 => true
  | _ => false
  end.

(** What one iteration guarantees about its values, at row index [i]. *)
Record txn_ok (i : Z) (x : Txn.t) : Prop := {
  ok_id : Txn.transaction_id x = format_transaction_id i;
  ok_quantity : 1 ≤ Txn.quantity x ≤ 10;
  ok_age : 18 ≤ Txn.customer_age x ≤ 80;
  ok_price : ∃ u, price_in_range u = true
                  ∧ Txn.unit_price x = PyNum.round (PyNum.Float u) 2;
  ok_discount : ∃ k, 0 ≤ k < 7 ∧ discount_choices !! Z.to_nat k = Some (Txn.discount x);
  ok_total : Txn.total_amount x =
             PyNum.round
               (PyNum.mul (PyNum.mul (PyNum.Int (Txn.quantity x)) (Txn.unit_price x))
                          (PyNum.sub (PyNum.Int 1) (Txn.discount_applied x))) 2
}.

(** The standard output of the loop after the rows numbered [first],
    [first + 1], ... ([count] of them): a line and a flush after each row
    whose number is a multiple of [interval]. *)
Definition progress_events (num_rows interval first : Z) (count : nat) : list event :=
  flat_map (λ c, if c `mod` interval =? 0
                 then [Line (progress_line c num_rows); Flushed]
                 else [])
           (seqZ first (Z.of_nat count)).

(** The progress lines among the events of a run. *)
Definition is_progress (ev : event) : bool :=
  match ev with
  | Line s => String.prefix "Progress: " s
  | _ => false
  end.

(** The lines printed once the loop is over. *)
Definition report_events (filename : string) (num_rows : Z) : list event :=
  [ Line (newline +:+ "✅ Generated " +:+ filename);
    File_size_line filename;
    Line ("📝 Columns: " +:+ Fmt.int (Z.of_nat (List.length headers)));
    Line ("📈 Rows: " +:+ Fmt.comma num_rows) ].

(** [m] returns a value satisfying [P] from every world, changing nothing
    but the state of the random source. *)
Definition returns {G A} (m : M G A) (P : A → Prop) : Prop :=
  ∀ w, ∃ a g, m w = (Ok a, set_rng g w) ∧ P a.

(** A world for running the script on a tape: no file yet, every path
    writable, nothing printed. *)
Definition tape_world (t : tape) : world tape :=
  mk_world t ∅ (λ _, true) [].

(** A tape for concrete runs: its first entries make a first row with a
    discount and a rating; once it is used up every draw is the lowest
    one. *)
Definition sample_tape : tape :=
  [ 5; 6; 7; 8; 9; 10; 11; 2 ^ 52; 3; 1; 2; 3; 4; 2 ^ 50; 2 ^ 51; 7 ].

Definition sample_world : world tape := tape_world sample_tape.

(** The check behind the price bound: every amount of [count] cents from
    [first] cents on, read back as a float, is within the bounds. *)
Fixpoint cents_in_range (first : Z) (count : nat) : bool :=
  match count with
  | O => true
  | S n => price_in_range (PyNum.div_int first 100)
           && cents_in_range (first + 1) n
  end.

(** *** The statements of the specification that the code is compared with *)

Module Spec.

(** The column order of the table in section 3 of the specification. *)
Definition section3_columns : list string :=
  [ "transaction_id"; "timestamp"; "customer_id"; "product_id";
    "category"; "quantity"; "unit_price"; "discount_applied"; "total_amount";
    "payment_method"; "store_location"; "customer_age"; "customer_segment";
    "rating"; "returned" ].

(** The discount candidates as the specification lists them. *)
Definition discount_candidates : list PyNum.num :=
  [ PyNum.Int 0; PyNum.Int 0; PyNum.Int 0; PyNum.Int 0;
    PyNum.Float 0.1; PyNum.Float 0.15; PyNum.Float 0.2; PyNum.Float 0.25 ].

(** Writing row number [c] (counted from 1) crosses a 1/20th boundary of
    [num_rows]: the count of twentieths completed goes up. *)
Definition crosses_twentieth (num_rows c : Z) : bool :=
  (20 * (c - 1)) `div` num_rows <? (20 * c) `div` num_rows.

End Spec.

(* ================================================================= *)
(** ** Further observations on the rows *)

(** A float within the bounds of a rating, by Python's [<=]. *)
Definition rating_in_range (v : float) : bool :=
  (1 <=? v)%float && (v <=? 5)%float.

(** What one iteration guarantees about the remaining values of its row:
    the draws behind the timestamp and the two ids, the lists the other
    columns are chosen from, and the two forms of a rating. *)
Record txn_shape (x : Txn.t) : Prop := {
  shape_timestamp :
    ∃ days hours minutes,
      0 ≤ days ≤ 1095 ∧ 0 ≤ hours ≤ 23 ∧ 0 ≤ minutes ≤ 59
      ∧ Txn.timestamp x
        = Datetime.add start_date (Datetime.timedelta days hours minutes);
  shape_customer :
    ∃ c, 1 ≤ c ≤ 50000 ∧ Txn.customer_id x = "CUST" +:+ Fmt.d0 6 c;
  shape_product :
    ∃ p, 1 ≤ p ≤ 5000 ∧ Txn.product_id x = "PROD" +:+ Fmt.d0 5 p;
  shape_category : Txn.category x ∈ categories;
  shape_payment : Txn.payment_method x ∈ payment_methods;
  shape_location : Txn.store_location x ∈ locations;
  shape_segment : Txn.customer_segment x ∈ segments;
  shape_returned : Txn.returned x ∈ returned_choices;
  shape_rating :
    Txn.rating x = Str EmptyString
    ∨ ∃ u, rating_in_range u = true
           ∧ Txn.rating x = Num (PyNum.round (PyNum.Float u) 1)
}.



(** Every amount of [count] tenths from [first] tenths on, read back as a
    float, is within the bounds of a rating. *)
Fixpoint tenths_in_range (first : Z) (count : nat) : bool :=
  match count with
  | O => true
  | S n => rating_in_range (PyNum.div_int first 10)
           && tenths_in_range (first + 1) n
  end.

(** The number of rows a run leaves below the header, by the row count
    asked for: none, the one written before the failure, or all. *)
Definition rows_left (num_rows : Z) : nat :=
  if num_rows <=? 0 then 0%nat
  else if num_rows <=? 19 then 1%nat
  else Z.to_nat num_rows.

(** The selectors of the entry point with the path and the row count each
    one stands for. *)
Definition presets : list (string * (string * Z)) :=
  [ ("small", ("test-datasets/large/transactions-small.csv", 10000));
    ("medium", ("test-datasets/large/transactions-medium.csv", 100000));
    ("large", ("test-datasets/large/transactions-large.csv", 1000000));
    ("xlarge", ("test-datasets/large/transactions-xlarge.csv", 5000000)) ].

(** An event other than the line of the file size. *)
Definition is_file_size (ev : event) : bool :=
  match ev with
  | File_size_line _ => true
  | _ => false
  end.

(* ================================================================= *)
(** ** A random source that records its integer draws *)

(** Any random source, with the list of the integer draws made so far:
    a call [randbelow n] that answers [k] adds [(n, k)].  The values drawn
    are those of the source underneath, so every run of the script is the
    run on some recording source. *)
Definition recording (G : Type) : Type := G * list (Z * Z).

Global Instance recording_source {G} `{RandomSource G} : RandomSource (recording G).
Proof.
  refine {| randbelow := λ n (s : recording G),
              ((randbelow n s.1).1,
               ((randbelow n s.1).2, s.2 ++ [(n, (randbelow n s.1).1)]));
            random := λ (s : recording G), ((random s.1).1, ((random s.1).2, s.2));
            uniform := λ a b (s : recording G),
              ((uniform a b s.1).1, ((uniform a b s.1).2, s.2)) |}.
  - intros n s Hn. cbn [fst]. apply randbelow_range. exact Hn.
  - intros a b s Hab. cbn [fst]. apply uniform_range. exact Hab.
Defined.

(** [m] returns a value from every world of a recording source, changing
    nothing but the state of the source and adding the draws [l] to its
    record, with [P a l]. *)
Definition records {G A} (m : M (recording G) A)
    (P : A → list (Z * Z) → Prop) : Prop :=
  ∀ w, ∃ a g l, m w = (Ok a, set_rng (g, (w_rng w).2 ++ l) w) ∧ P a l.

(** What one iteration adds to the record: thirteen integer draws, the
    eighth of them a draw below 7 whose answer is the index of the row's
    discount in the list of candidates. *)
Definition row_draws (x : Txn.t) (l : list (Z * Z)) : Prop :=
  List.length l = 13%nat
  ∧ ∃ k, l !! 7%nat = Some (7, k)
         ∧ 0 ≤ k < 7
         ∧ discount_choices !! Z.to_nat k = Some (Txn.discount x).

(** A world for running the script on a tape whose draws are recorded. *)
Definition recording_world (t : tape) : world (recording tape) :=
  mk_world (t, []) ∅ (λ _, true) [].

(* ================================================================= *)
(** ** Stepping through computations *)

Section Steps.
Context {G : Type} `{RandomSource G}.

Lemma bind_ok {A B} (m : M G A) (f : A → M G B) w a w' :
  m w = (Ok a, w') → (m ≫= f) w = f a w'.
Proof. intros E. unfold mbind, M_bind. rewrite E. reflexivity. Qed.

Lemma bind_raise {A B} (m : M G A) (f : A → M G B) w e w' :
  m w = (Raise e, w') → (m ≫= f) w = (Raise e, w').
Proof. intros E. unfold mbind, M_bind. rewrite E. reflexivity. Qed.

Lemma returns_ret {A} (a : A) (P : A → Prop) : P a → returns (G:=G) (mret a) P.
Proof. intros Pa [g fs wr out]. exists a, g. split; [reflexivity | exact Pa]. Qed.

Lemma returns_bind {A B} (m : M G A) (f : A → M G B) (P : A → Prop) (Q : B → Prop) :
  returns m P → (∀ a, P a → returns (f a) Q) → returns (m ≫= f) Q.
Proof.
  intros Hm Hf w.
  destruct (Hm w) as (a & g & E & Pa).
  destruct (Hf a Pa (set_rng g w)) as (b & g' & E' & Qb).
  exists b, g'. split; [|exact Qb].
  rewrite (bind_ok _ _ _ _ _ E). exact E'.
Qed.

Lemma returns_draw {A} (f : G → A * G) (P : A → Prop) :
  (∀ g, P (f g).1) → returns (draw f) P.
Proof.
  intros Hf w. exists (f (w_rng w)).1, (f (w_rng w)).2.
  split; [reflexivity | apply Hf].
Qed.

Lemma returns_randint (a b : Z) :
  a ≤ b → returns (randint a b) (λ v, a ≤ v ≤ b).
Proof.
  intros Hab. unfold randint.
  eapply returns_bind.
  - apply (returns_draw _ (λ k, 0 ≤ k < b - a + 1)).
    intros g. apply randbelow_range. lia.
  - intros k Hk. cbv beta in Hk. apply returns_ret. lia.
Qed.

Lemma returns_choice {A} (seq : list A) :
  seq ≠ [] →
  returns (choice seq)
          (λ x, ∃ k, 0 ≤ k < Z.of_nat (List.length seq) ∧ seq !! Z.to_nat k = Some x).
Proof.
  intros Hne. unfold choice. destruct seq as [|x0 seq0]; [done|].
  set (seq := x0 :: seq0) in *.
  eapply returns_bind.
  - apply (returns_draw _ (λ k, 0 ≤ k < Z.of_nat (List.length seq))).
    intros g. apply randbelow_range. simpl. lia.
  - intros k Hk. cbv beta in Hk.
    destruct (lookup_lt_is_Some_2 seq (Z.to_nat k)) as [x Hx].
    { lia. }
    unfold getitem.
    destruct (Z.leb_spec 0 k); [|lia].
    rewrite Hx.
    destruct (Z.leb_spec (- Z.of_nat (List.length seq)) k); [|lia].
    apply returns_ret. eauto.
Qed.

Lemma returns_if {A} (b : bool) (m1 m2 : M G A) (P : A → Prop) :
  returns m1 P → returns m2 P → returns (if b then m1 else m2) P.
Proof. destruct b; auto. Qed.

(** One iteration always builds its values, within the guaranteed
    ranges. *)
Lemma gen_row_returns (i : Z) : returns (gen_row i) (txn_ok i).
Proof.
  unfold gen_row. cbv zeta.
  eapply returns_bind; [apply returns_randint; lia | intros days _].
  eapply returns_bind; [apply returns_randint; lia | intros hours _].
  eapply returns_bind; [apply returns_randint; lia | intros minutes _].
  eapply returns_bind; [apply returns_randint; lia | intros c _].
  eapply returns_bind; [apply returns_randint; lia | intros p _].
  eapply returns_bind; [apply returns_choice; done | intros cat _].
  eapply returns_bind; [apply returns_randint; lia | intros q Hq].
  eapply returns_bind.
  { apply (returns_draw _ (λ u, price_in_range u = true)).
    intros g. apply uniform_range. reflexivity. }
  intros u Hu.
  eapply returns_bind; [apply returns_choice; done | intros d Hd].
  eapply returns_bind; [apply returns_choice; done | intros pm _].
  eapply returns_bind; [apply returns_choice; done | intros loc _].
  eapply returns_bind; [apply returns_randint; lia | intros age Hage].
  eapply returns_bind; [apply returns_choice; done | intros seg _].
  eapply returns_bind; [apply (returns_draw _ (λ _, True)); done | intros present _].
  eapply returns_bind.
  { apply (returns_if _ _ _ (λ _, True)).
    - eapply returns_bind; [apply (returns_draw _ (λ _, True)); done | intros r _].
      apply returns_ret. done.
    - apply returns_ret. done. }
  intros rating _.
  eapply returns_bind; [apply returns_choice; done | intros ret _].
  apply returns_ret. cbv beta in Hq, Hu, Hd, Hage.
  split; simpl.
  - reflexivity.
  - exact Hq.
  - exact Hage.
  - exists u. split; [exact Hu | reflexivity].
  - exact Hd.
  - reflexivity.
Qed.

End Steps.

(* ================================================================= *)
(** ** The loop and the whole run *)

Lemma append_rows_nil filename (fs : gmap string (list row)) :
  append_rows filename [] fs = fs.
Proof.
  unfold append_rows. apply alter_id. intros rows _. apply app_nil_r.
Qed.

Lemma append_rows_app filename a b (fs : gmap string (list row)) :
  append_rows filename b (append_rows filename a fs) = append_rows filename (a ++ b) fs.
Proof.
  unfold append_rows. apply map_eq. intros k.
  destruct (decide (filename = k)) as [->|Hne].
  - rewrite !lookup_alter_eq. destruct (fs !! k) as [rows|]; simpl; [|reflexivity].
    by rewrite app_assoc.
  - by rewrite !lookup_alter_ne.
Qed.

Lemma lookup_append_rows filename new (fs : gmap string (list row)) :
  append_rows filename new fs !! filename = (λ rows, rows ++ new) <$> fs !! filename.
Proof. unfold append_rows. apply lookup_alter_eq. Qed.

Lemma progress_events_nil num_rows interval first :
  progress_events num_rows interval first 0 = [].
Proof. reflexivity. Qed.

Lemma progress_events_cons num_rows interval first count :
  progress_events num_rows interval first (S count) =
  (if first `mod` interval =? 0
   then [Line (progress_line first num_rows); Flushed]
   else [])
  ++ progress_events num_rows interval (first + 1) count.
Proof.
  unfold progress_events.
  rewrite seqZ_cons by lia. simpl flat_map.
  replace (Z.pred (Z.of_nat (S count))) with (Z.of_nat count) by lia.
  reflexivity.
Qed.

Section Loop.
Context {G : Type} `{RandomSource G}.

(** An iteration with a non-zero interval writes its row, then prints
    and flushes the progress line if the row number is a multiple of the
    interval. *)
Lemma loop_body_ok filename num_rows interval i (w : world G) :
  interval ≠ 0 →
  ∃ x g,
    loop_body filename num_rows interval i w =
      (Ok (), mk_world g (append_rows filename [row_of x] (w_fs w)) (w_writable w)
                (w_stdout w ++ progress_events num_rows interval (i + 1) 1))
    ∧ txn_ok i x.
Proof.
  intros Hiv.
  destruct (gen_row_returns i w) as (x & g & E & Hx).
  exists x, g. split; [|exact Hx].
  unfold loop_body. rewrite (bind_ok _ _ _ _ _ E).
  unfold py_mod. destruct (Z.eqb_spec interval 0) as [|_]; [done|].
  rewrite progress_events_cons, progress_events_nil, app_nil_r.
  destruct w as [g0 fs wr out].
  unfold mbind, M_bind, mret, M_ret, writerow, print, flush. cbn.
  destruct ((i + 1) `mod` interval =? 0); cbn.
  - by rewrite <- app_assoc.
  - by rewrite app_nil_r.
Qed.

(** An iteration with interval zero writes its row and then fails on the
    modulo, before anything is printed. *)
Lemma loop_body_zero filename num_rows i (w : world G) :
  ∃ x g,
    loop_body filename num_rows 0 i w =
      (Raise ZeroDivisionError,
       mk_world g (append_rows filename [row_of x] (w_fs w)) (w_writable w) (w_stdout w))
    ∧ txn_ok i x.
Proof.
  destruct (gen_row_returns i w) as (x & g & E & Hx).
  exists x, g. split; [|exact Hx].
  unfold loop_body. rewrite (bind_ok _ _ _ _ _ E).
  destruct w as [g0 fs wr out]. reflexivity.
Qed.

(** The loop with a non-zero interval runs to its end. *)
Lemma for_from_ok filename num_rows interval :
  interval ≠ 0 →
  ∀ n i (w : world G),
  ∃ xs g,
    for_from n i (loop_body filename num_rows interval) w =
      (Ok (), mk_world g (append_rows filename (row_of <$> xs) (w_fs w)) (w_writable w)
                (w_stdout w ++ progress_events num_rows interval (i + 1) n))
    ∧ Forall2 txn_ok (seqZ i (Z.of_nat n)) xs.
Proof.
  intros Hiv n. induction n as [|n IH]; intros i w.
  - exists [], (w_rng w). split; [|constructor].
    destruct w as [g0 fs wr out]. cbn.
    by rewrite append_rows_nil, app_nil_r.
  - destruct (loop_body_ok filename num_rows interval i w Hiv) as (x & g1 & E1 & Hx).
    destruct (IH (i + 1) (mk_world g1 (append_rows filename [row_of x] (w_fs w))
                            (w_writable w)
                            (w_stdout w ++ progress_events num_rows interval (i + 1) 1)))
      as (xs & g2 & E2 & Hxs).
    exists (x :: xs), g2. split.
    + cbn [for_from]. rewrite (bind_ok _ _ _ _ _ E1). rewrite E2. cbn.
      rewrite append_rows_app, <- app_assoc.
      rewrite (progress_events_cons _ _ (i + 1) n).
      rewrite (progress_events_cons _ _ (i + 1) 0), progress_events_nil, app_nil_r.
      reflexivity.
    + rewrite seqZ_cons by lia.
      replace (Z.pred (Z.of_nat (S n))) with (Z.of_nat n) by lia.
      constructor; assumption.
Qed.

(** The run up to the loop, on a writable path. *)
Lemma generate_prelude filename num_rows (g : G) fs wr out :
  wr filename = true →
  generate_large_csv filename num_rows (mk_world g fs wr out) =
    (for_range num_rows (loop_body filename num_rows (num_rows `div` 20)) ;;
     print (newline +:+ "✅ Generated " +:+ filename) ;;
     print_file_size filename ;;
     print ("📝 Columns: " +:+ Fmt.int (Z.of_nat (List.length headers))) ;;
     print ("📈 Rows: " +:+ Fmt.comma num_rows))
      (mk_world g (opened filename fs) wr (out ++ [banner num_rows])).
Proof.
  intros Hwr. unfold generate_large_csv.
  rewrite (bind_ok (print _) _ _ () (mk_world g fs wr (out ++ [banner num_rows])))
    by reflexivity.
  rewrite (bind_ok (open_w _) _ _ ()
             (mk_world g (<[filename := []]> fs) wr (out ++ [banner num_rows])))
    by (unfold open_w; cbn [w_writable]; rewrite Hwr; reflexivity).
  rewrite (bind_ok (writerow _ _) _ _ ()
             (mk_world g (opened filename fs) wr (out ++ [banner num_rows])))
    by reflexivity.
  reflexivity.
Qed.

(** The report after the loop. *)
Lemma report_ok filename num_rows (g : G) fs wr out :
  (print (newline +:+ "✅ Generated " +:+ filename) ;;
   print_file_size filename ;;
   print ("📝 Columns: " +:+ Fmt.int (Z.of_nat (List.length headers))) ;;
   print ("📈 Rows: " +:+ Fmt.comma num_rows)) (mk_world g fs wr out) =
  (Ok (), mk_world g fs wr (out ++ report_events filename num_rows)).
Proof.
  unfold mbind, M_bind, print, print_file_size, set_stdout.
  cbn [w_rng w_fs w_writable w_stdout].
  rewrite <- !app_assoc. reflexivity.
Qed.

(** The three ways a run on a writable path goes. *)
Lemma generate_nonpositive filename num_rows (w : world G) :
  w_writable w filename = true →
  num_rows ≤ 0 →
  generate_large_csv filename num_rows w =
    (Ok (), mk_world (w_rng w) (opened filename (w_fs w)) (w_writable w)
              (w_stdout w ++ banner num_rows :: report_events filename num_rows)).
Proof.
  intros Hwr Hn. destruct w as [g fs wr out]. cbn in Hwr.
  rewrite generate_prelude by exact Hwr.
  unfold for_range. replace (Z.to_nat num_rows) with O by lia.
  cbn [for_from].
  rewrite (bind_ok (mret ()) _ _ ()
             (mk_world g (opened filename fs) wr (out ++ [banner num_rows])))
    by reflexivity.
  rewrite report_ok. cbn [w_rng w_fs w_writable w_stdout].
  by rewrite <- app_assoc.
Qed.

Lemma generate_below_twenty filename num_rows (w : world G) :
  w_writable w filename = true →
  1 ≤ num_rows ≤ 19 →
  ∃ x g,
    generate_large_csv filename num_rows w =
      (Raise ZeroDivisionError,
       mk_world g (append_rows filename [row_of x] (opened filename (w_fs w)))
         (w_writable w) (w_stdout w ++ [banner num_rows]))
    ∧ txn_ok 0 x.
Proof.
  intros Hwr Hn. destruct w as [g fs wr out]. cbn in Hwr.
  set (w1 := mk_world g (opened filename fs) wr (out ++ [banner num_rows])).
  destruct (loop_body_zero filename num_rows 0 w1) as (x & g1 & E & Hx).
  exists x, g1. split; [|exact Hx].
  rewrite generate_prelude by exact Hwr. fold w1.
  replace (num_rows `div` 20) with 0 by (symmetry; apply Z.div_small; lia).
  unfold for_range.
  destruct (Z.to_nat num_rows) as [|n] eqn:En; [lia|].
  cbn [for_from].
  erewrite bind_raise; [reflexivity|].
  erewrite bind_raise; [reflexivity|].
  exact E.
Qed.

Lemma generate_from_twenty filename num_rows (w : world G) :
  w_writable w filename = true →
  20 ≤ num_rows →
  ∃ xs g,
    generate_large_csv filename num_rows w =
      (Ok (),
       mk_world g (append_rows filename (row_of <$> xs) (opened filename (w_fs w)))
         (w_writable w)
         (w_stdout w ++ banner num_rows
            :: progress_events num_rows (num_rows `div` 20) 1 (Z.to_nat num_rows)
            ++ report_events filename num_rows))
    ∧ Forall2 txn_ok (seqZ 0 num_rows) xs.
Proof.
  intros Hwr Hn.
  assert (Hiv : num_rows `div` 20 ≠ 0).
  { pose proof (Z.div_le_mono 20 num_rows 20 ltac:(lia) Hn) as Hd.
    rewrite Z.div_same in Hd by lia. lia. }
  destruct w as [g fs wr out]. cbn in Hwr.
  set (w1 := mk_world g (opened filename fs) wr (out ++ [banner num_rows])).
  destruct (for_from_ok filename num_rows (num_rows `div` 20) Hiv
              (Z.to_nat num_rows) 0 w1) as (xs & g1 & E & Hxs).
  exists xs, g1. split.
  - rewrite generate_prelude by exact Hwr. fold w1.
    unfold for_range. rewrite (bind_ok _ _ _ _ _ E).
    rewrite report_ok. cbn [w_rng w_fs w_writable w_stdout w1].
    by rewrite <- !app_assoc.
  - by rewrite Z2Nat.id in Hxs by lia.
Qed.

End Loop.

(* ================================================================= *)
(** ** Rounding a price keeps it within the bounds *)

Lemma digits2_pos_bounds (m : positive) :
  2 ^ (Z.pos (digits2_pos m) - 1) ≤ Z.pos m < 2 ^ Z.pos (digits2_pos m).
Proof.
  induction m as [m IH|m IH|]; cbn [digits2_pos].
  - rewrite Pos2Z.inj_succ.
    replace (Z.succ (Z.pos (digits2_pos m)) - 1) with (Z.succ (Z.pos (digits2_pos m) - 1)) by lia.
    rewrite !Z.pow_succ_r by lia. lia.
  - rewrite Pos2Z.inj_succ.
    replace (Z.succ (Z.pos (digits2_pos m)) - 1) with (Z.succ (Z.pos (digits2_pos m) - 1)) by lia.
    rewrite !Z.pow_succ_r by lia. lia.
  - cbn. lia.
Qed.

(** Rounding half-even moves a quotient by at most one half. *)
Lemma round_half_even_near (n d : Z) :
  0 < d →
  2 * n - d ≤ 2 * d * PyNum.round_half_even n d ≤ 2 * n + d.
Proof.
  intros Hd. unfold PyNum.round_half_even.
  pose proof (Z.div_mod n d ltac:(lia)) as Hdm.
  pose proof (Z.mod_pos_bound n d Hd) as Hm.
  destruct (Z.compare_spec (2 * (n `mod` d)) d) as [Heq|Hlt|Hgt].
  - destruct (Z.even (n `div` d)); nia.
  - nia.
  - nia.
Qed.

(** A float between the two price bounds is a positive finite number
    whose mantissa and exponent lie between theirs. *)
Lemma price_in_range_finite (u : float) :
  price_in_range u = true →
  ∃ m e, Prim2SF u = S754_finite false m e
         ∧ -50 ≤ e ≤ -43
         ∧ 2 ^ 52 ≤ Z.pos m < 2 ^ 53
         ∧ (e = -50 → 6744140441987318 ≤ Z.pos m)
         ∧ (e = -43 → Z.pos m ≤ 8796005061277778).
Proof.
  unfold price_in_range. intros [Hlo Hhi]%andb_prop.
  rewrite leb_spec in Hlo, Hhi.
  pose proof (Prim2SF_valid u) as Hvalid.
  change (Prim2SF 5.99) with (S754_finite false 6744140441987318 (-50)) in Hlo.
  change (Prim2SF 999.99) with (S754_finite false 8796005061277778 (-43)) in Hhi.
  destruct (Prim2SF u) as [s|s| |s m e]; try discriminate.
  - destruct s; discriminate.
  - destruct s; [discriminate|].
    unfold SFleb, SFcompare in Hlo, Hhi.
    rewrite Pos.compare_cont_spec in Hlo, Hhi. cbn [Pos.switch_Eq] in Hlo, Hhi.
    rewrite Pos2Z.inj_compare in Hlo, Hhi.
    assert (Hlo' : -50 < e ∨ (e = -50 ∧ 6744140441987318 ≤ Z.pos m)).
    { destruct (Z.compare_spec (-50) e) as [Heq|Hlt|Hgt]; [|lia|discriminate].
      right. split; [lia|].
      destruct (Z.compare_spec 6744140441987318 (Z.pos m)); try discriminate; lia. }
    assert (Hhi' : e < -43 ∨ (e = -43 ∧ Z.pos m ≤ 8796005061277778)).
    { destruct (Z.compare_spec e (-43)) as [Heq|Hlt|Hgt]; [|lia|discriminate].
      right. split; [lia|].
      destruct (Z.compare_spec (Z.pos m) 8796005061277778); try discriminate; lia. }
    cbn [valid_binary] in Hvalid. unfold bounded, canonical_mantissa in Hvalid.
    apply andb_prop in Hvalid as [Hcanon _].
    apply Z.eqb_eq in Hcanon. unfold fexp, SpecFloat.emin, prec, emax in Hcanon.
    assert (Hdigits : Z.pos (digits2_pos m) = 53) by lia.
    pose proof (digits2_pos_bounds m) as Hm. rewrite Hdigits in Hm.
    exists m, e. split; [reflexivity|].
    split; [lia|]. split; [exact Hm|]. split; lia.
Qed.

(** Every amount of cents the check covers reads back within the bounds. *)
Lemma cents_in_range_spec (count : nat) :
  ∀ first, cents_in_range first count = true →
  ∀ n, first ≤ n < first + Z.of_nat count →
  price_in_range (PyNum.div_int n 100) = true.
Proof.
  induction count as [|count IH]; intros first Hall n Hn; [lia|].
  cbn [cents_in_range] in Hall. apply andb_prop in Hall as [Hfirst Hrest].
  destruct (decide (n = first)) as [->|Hne]; [exact Hfirst|].
  apply (IH (first + 1) Hrest). lia.
Qed.

Lemma cents_599_to_99999 : cents_in_range 599 (Z.to_nat 99401) = true.
Proof. vm_compute. reflexivity. Qed.

(** [round(u, 2)] of a float within the price bounds is within them. *)
Lemma round_price_in_range (u : float) :
  price_in_range u = true →
  price_in_range (PyNum.round_float u 2) = true.
Proof.
  intros Hu.
  destruct (price_in_range_finite u Hu) as (m & e & Hsf & He & Hm & Hlo & Hhi).
  unfold PyNum.round_float. rewrite Hsf.
  destruct (Z.leb_spec 0 e) as [|_]; [lia|].
  change (10 ^ 2) with 100.
  apply (cents_in_range_spec _ 599 cents_599_to_99999).
  unfold PyNum.scaled_round.
  destruct (Z.leb_spec 0 e) as [|_]; [lia|].
  pose proof (round_half_even_near (Z.pos m * 100) (2 ^ (- e))
                ltac:(apply Z.pow_pos_nonneg; lia)) as Hnear.
  set (n := PyNum.round_half_even (Z.pos m * 100) (2 ^ (- e))) in *.
  assert (Hcases : e = -50 ∨ e = -49 ∨ e = -48 ∨ e = -47
                   ∨ e = -46 ∨ e = -45 ∨ e = -44 ∨ e = -43) by lia.
  change (2 ^ 52) with 4503599627370496 in Hm.
  change (2 ^ 53) with 9007199254740992 in Hm.
  destruct Hcases as [->|[->|[->|[->|[->|[->|[->| ->]]]]]]];
    cbn [Z.opp] in Hnear;
    match type of Hnear with
    | context [2 ^ ?k] =>
        let v := eval vm_compute in (2 ^ k) in change (2 ^ k) with v in Hnear
    end;
    lia.
Qed.

(* ================================================================= *)
(** ** Transaction ids carry the row number *)

Lemma append_cons (a : ascii) (s t : string) :
  String a s +:+ t = String a (s +:+ t).
Proof. reflexivity. Qed.

Lemma append_empty_l (s : string) : EmptyString +:+ s = s.
Proof. reflexivity. Qed.

Lemma uint_of_string_zeros (k : nat) (s : string) :
  NilEmpty.uint_of_string (Fmt.zeros k +:+ s)
  = Nat.iter k Decimal.D0 <$> NilEmpty.uint_of_string s.
Proof.
  induction k as [|k IH]; cbn [Fmt.zeros].
  - rewrite append_empty_l. by destruct (NilEmpty.uint_of_string s).
  - rewrite append_cons. cbn [NilEmpty.uint_of_string]. rewrite IH.
    by destruct (NilEmpty.uint_of_string s).
Qed.

Lemma of_uint_leading_zeros (k : nat) (d : Decimal.uint) :
  N.of_uint (Nat.iter k Decimal.D0 d) = N.of_uint d.
Proof. induction k as [|k IH]; [reflexivity | exact IH]. Qed.

Lemma uint_of_string_digits (n : N) :
  NilEmpty.uint_of_string (Fmt.digits n) = Some (N.to_uint n).
Proof.
  unfold Fmt.digits, NilZero.string_of_uint.
  destruct (N.to_uint n) as [| | | | | | | | | |] eqn:E; try apply NilEmpty.usu.
  destruct n as [|p]; [discriminate|].
  by destruct (DecimalPos.Unsigned.to_uint_nonnil p).
Qed.

(** Reading a zero-padded number back gives the number. *)
Lemma read_zfill (width : nat) (n : N) :
  N.of_uint <$> NilEmpty.uint_of_string (Fmt.zfill width (Fmt.digits n)) = Some n.
Proof.
  unfold Fmt.zfill. rewrite uint_of_string_zeros, uint_of_string_digits. cbn.
  by rewrite of_uint_leading_zeros, DecimalN.Unsigned.of_to.
Qed.

Lemma txn_number_format (i : Z) :
  0 ≤ i → txn_number (format_transaction_id i) = Some (Z.to_N (i + 1)).
Proof.
  intros Hi. unfold format_transaction_id, Fmt.d0.
  destruct (Z.ltb_spec (i + 1) 0) as [|_]; [lia|].
  rewrite !append_cons, append_empty_l. cbn [txn_number].
  rewrite read_zfill. f_equal. lia.
Qed.

Lemma format_transaction_id_inj (i j : Z) :
  0 ≤ i → 0 ≤ j → format_transaction_id i = format_transaction_id j → i = j.
Proof.
  intros Hi Hj E.
  pose proof (txn_number_format i Hi) as Ei.
  rewrite E, (txn_number_format j Hj) in Ei.
  injection Ei. lia.
Qed.

(* ================================================================= *)
(** ** Transaction ids as strings *)

Lemma of_uint_acc_value (d : Decimal.uint) :
  ∀ acc, N.pos (Pos.of_uint_acc d acc) = decimal_value (N.pos acc) d.
Proof.
  induction d as [|d IH|d IH|d IH|d IH|d IH|d IH|d IH|d IH|d IH|d IH]; intros acc;
    cbn [Pos.of_uint_acc decimal_value]; [reflexivity|..];
    rewrite IH; f_equal; lia.
Qed.

Lemma of_uint_value (d : Decimal.uint) : N.of_uint d = decimal_value 0 d.
Proof.
  unfold N.of_uint.
  induction d as [|d IH|d IH|d IH|d IH|d IH|d IH|d IH|d IH|d IH|d IH];
    cbn [Pos.of_uint decimal_value]; [reflexivity|exact IH|..];
    apply of_uint_acc_value.
Qed.

Lemma decimal_value_lower (d : Decimal.uint) :
  ∀ acc, (acc * 10 ^ N.of_nat (Decimal.nb_digits d) ≤ decimal_value acc d)%N.
Proof.
  induction d as [|d IH|d IH|d IH|d IH|d IH|d IH|d IH|d IH|d IH|d IH]; intros acc;
    cbn [Decimal.nb_digits decimal_value];
    [rewrite N.pow_0_r; lia|..];
    rewrite Nat2N.inj_succ, N.pow_succ_r';
    match goal with
    | |- (_ ≤ decimal_value ?a _)%N => specialize (IH a)
    end; nia.
Qed.

Lemma string_of_uint_length (d : Decimal.uint) :
  String.length (NilEmpty.string_of_uint d) = Decimal.nb_digits d.
Proof. induction d; cbn; congruence. Qed.

Lemma compare_decimal (d : Decimal.uint) :
  ∀ d' a b,
  Decimal.nb_digits d = Decimal.nb_digits d' →
  (decimal_value a d ?= decimal_value b d')%N
  = match (a ?= b)%N with
    | Eq => String.compare (NilEmpty.string_of_uint d) (NilEmpty.string_of_uint d')
    | c => c
    end.
Proof.
  induction d as [|d IH|d IH|d IH|d IH|d IH|d IH|d IH|d IH|d IH|d IH];
    intros [|d'|d'|d'|d'|d'|d'|d'|d'|d'|d'] a b Hlen; try discriminate Hlen;
    cbn [decimal_value NilEmpty.string_of_uint String.compare];
    [by destruct (a ?= b)%N|..];
    injection Hlen as Hlen; rewrite (IH _ _ _ Hlen);
    match goal with
    | |- context [Ascii.compare ?x ?y] =>
        let v := eval vm_compute in (Ascii.compare x y) in
        change (Ascii.compare x y) with v
    end;
    match goal with
    | |- match (?x ?= ?y)%N with _ => _ end = _ =>
        destruct (N.compare_spec a b); destruct (N.compare_spec x y)
    end; first [reflexivity | lia].
Qed.

Lemma zeros_string_of_uint (k : nat) (d : Decimal.uint) :
  Fmt.zeros k +:+ NilEmpty.string_of_uint d
  = NilEmpty.string_of_uint (Nat.iter k Decimal.D0 d).
Proof.
  induction k as [|k IH]; [reflexivity|].
  cbn [Fmt.zeros Nat.iter NilEmpty.string_of_uint].
  rewrite append_cons. by rewrite IH.
Qed.

Lemma to_uint_no_leading_zero (p : positive) :
  Decimal.nzhead (Pos.to_uint p) = Pos.to_uint p.
Proof.
  pose proof (DecimalN.Unsigned.to_of (Pos.to_uint p)) as Hnorm.
  change (Pos.to_uint p) with (N.to_uint (N.pos p)) in Hnorm at 1.
  rewrite DecimalN.Unsigned.of_to in Hnorm.
  change (N.to_uint (N.pos p)) with (Pos.to_uint p) in Hnorm.
  destruct (Decimal.uint_eq_dec (Decimal.nzhead (Pos.to_uint p)) Decimal.Nil)
    as [Hnil|Hnz].
  - unfold Decimal.unorm in Hnorm. rewrite Hnil in Hnorm.
    by destruct (DecimalPos.Unsigned.to_uint_nonzero p).
  - rewrite (DecimalFacts.unorm_nzhead _ Hnz) in Hnorm. by symmetry.
Qed.

(** A positive number below [10 ^ k] is written with at most [k] digits. *)
Lemma digits_length (p : positive) (k : nat) :
  (N.pos p < 10 ^ N.of_nat k)%N →
  (Decimal.nb_digits (Pos.to_uint p) ≤ k)%nat.
Proof.
  intros Hlt.
  pose proof (to_uint_no_leading_zero p) as Hhead.
  pose proof (DecimalPos.Unsigned.of_to p) as Hval.
  change (Pos.of_uint (Pos.to_uint p)) with (N.of_uint (Pos.to_uint p)) in Hval.
  rewrite of_uint_value in Hval.
  destruct (Pos.to_uint p) as [|d|d|d|d|d|d|d|d|d|d] eqn:Hd.
  1: cbn; lia.
  1: { cbn [Decimal.nzhead] in Hhead.
       pose proof (DecimalFacts.nb_digits_nzhead d) as Hle.
       rewrite Hhead in Hle. cbn [Decimal.nb_digits] in Hle. lia. }
  all: cbn [decimal_value Decimal.nb_digits] in Hval |- *;
    match type of Hval with
    | decimal_value ?a _ = _ => pose proof (decimal_value_lower d a) as Hlow
    end;
    rewrite Hval in Hlow;
    assert (Hpow : (10 ^ N.of_nat (Decimal.nb_digits d) < 10 ^ N.of_nat k)%N) by nia;
    apply N.pow_lt_mono_r_iff in Hpow; lia.
Qed.

(** Below 10^8 the order of the zero-padded numbers as strings is the
    order of the numbers. *)
Lemma zfill_compare (a b : positive) :
  (N.pos a < 10 ^ 8)%N → (N.pos b < 10 ^ 8)%N →
  String.compare (Fmt.zfill 8 (Fmt.digits (N.pos a))) (Fmt.zfill 8 (Fmt.digits (N.pos b)))
  = (N.pos a ?= N.pos b)%N.
Proof.
  intros Ha Hb.
  assert (Hdigits : ∀ p, Fmt.digits (N.pos p) = NilEmpty.string_of_uint (Pos.to_uint p)).
  { intros p. unfold Fmt.digits, NilZero.string_of_uint.
    change (N.to_uint (N.pos p)) with (Pos.to_uint p).
    destruct (Pos.to_uint p) eqn:E; try reflexivity.
    by destruct (DecimalPos.Unsigned.to_uint_nonnil p). }
  unfold Fmt.zfill. rewrite !Hdigits, !string_of_uint_length, !zeros_string_of_uint.
  pose proof (digits_length a 8 Ha) as Hla.
  pose proof (digits_length b 8 Hb) as Hlb.
  set (ka := (8 - Decimal.nb_digits (Pos.to_uint a))%nat).
  set (kb := (8 - Decimal.nb_digits (Pos.to_uint b))%nat).
  pose proof (compare_decimal (Nat.iter ka Decimal.D0 (Pos.to_uint a))
                (Nat.iter kb Decimal.D0 (Pos.to_uint b)) 0%N 0%N) as Hcmp.
  change (0 ?= 0)%N with Eq in Hcmp. cbv iota in Hcmp.
  rewrite <- Hcmp by (rewrite !DecimalFacts.nb_digits_iter_D0; lia).
  rewrite <- !of_uint_value, !of_uint_leading_zeros.
  change (N.of_uint (Pos.to_uint a)) with (N.of_uint (N.to_uint (N.pos a))).
  change (N.of_uint (Pos.to_uint b)) with (N.of_uint (N.to_uint (N.pos b))).
  by rewrite !DecimalN.Unsigned.of_to.
Qed.

Lemma transaction_id_lt (i j : Z) :
  0 ≤ i < j → j + 1 < 10 ^ 8 →
  String.ltb (format_transaction_id i) (format_transaction_id j) = true.
Proof.
  intros Hij Hj. unfold String.ltb, format_transaction_id, Fmt.d0.
  destruct (Z.ltb_spec (i + 1) 0) as [|_]; [lia|].
  destruct (Z.ltb_spec (j + 1) 0) as [|_]; [lia|].
  rewrite !append_cons, !append_empty_l. cbn [String.compare].
  change (Ascii.compare "T" "T") with Eq.
  change (Ascii.compare "X" "X") with Eq.
  change (Ascii.compare "N" "N") with Eq.
  cbn match.
  destruct (Z.abs_N (i + 1)) as [|a] eqn:Ea; [lia|].
  destruct (Z.abs_N (j + 1)) as [|b] eqn:Eb; [lia|].
  rewrite zfill_compare by lia.
  assert (Hlt : (N.pos a < N.pos b)%N) by lia.
  apply N.compare_lt_iff in Hlt. by rewrite Hlt.
Qed.

(* ================================================================= *)
(** ** What a run leaves in the file *)

Lemma file_rows_opened {G} filename rows (g : G) fs wr out :
  file_rows filename (mk_world g (append_rows filename rows (opened filename fs)) wr out)
  = (Str <$> headers) :: rows.
Proof.
  unfold file_rows, opened. cbn [w_fs].
  rewrite !lookup_append_rows, lookup_insert_eq. reflexivity.
Qed.

Section Runs.
Context {G : Type} `{RandomSource G}.

(** A path that cannot be opened ends the run with OSError. *)
Lemma generate_unwritable filename num_rows (w : world G) :
  w_writable w filename = false →
  generate_large_csv filename num_rows w =
    (Raise OSError, set_stdout (w_stdout w ++ [banner num_rows]) w).
Proof.
  intros Hwr. destruct w as [g fs wr out]. cbn in Hwr.
  unfold generate_large_csv.
  rewrite (bind_ok (print _) _ _ () (mk_world g fs wr (out ++ [banner num_rows])))
    by reflexivity.
  erewrite bind_raise; [reflexivity|].
  unfold open_w. cbn [w_writable]. rewrite Hwr. reflexivity.
Qed.

(** The file after a run on a writable path: the header, then the rows
    of the iterations that reached [writerow], numbered from 0. *)
Lemma generate_written filename num_rows (w : world G) :
  w_writable w filename = true →
  ∃ xs,
    file_rows filename (generate_large_csv filename num_rows w).2
      = (Str <$> headers) :: (row_of <$> xs)
    ∧ Forall2 txn_ok (seqZ 0 (Z.of_nat (List.length xs))) xs.
Proof.
  intros Hwr.
  destruct (Z.le_gt_cases num_rows 0) as [Hle|Hgt].
  - exists []. rewrite (generate_nonpositive _ _ _ Hwr Hle). cbn [snd].
    split; [|constructor].
    rewrite <- (append_rows_nil filename (opened filename (w_fs w))).
    apply file_rows_opened.
  - destruct (Z.le_gt_cases num_rows 19) as [Hs|Hl].
    + destruct (generate_below_twenty filename num_rows w Hwr ltac:(lia))
        as (x & g & E & Hx).
      exists [x]. rewrite E. cbn [snd]. split.
      * apply file_rows_opened.
      * change (seqZ 0 (Z.of_nat (List.length [x]))) with [0].
        constructor; [exact Hx | constructor].
    + destruct (generate_from_twenty filename num_rows w Hwr ltac:(lia))
        as (xs & g & E & Hxs).
      exists xs. rewrite E. cbn [snd]. split.
      * apply file_rows_opened.
      * pose proof (Forall2_length _ _ _ Hxs) as Hlen.
        rewrite length_seqZ in Hlen.
        replace (Z.of_nat (List.length xs)) with num_rows by lia.
        exact Hxs.
Qed.

(** Every data row of the file comes from an iteration at its own
    index. *)
Lemma data_row_inv filename num_rows (w : world G) (i : nat) (r : row) :
  w_writable w filename = true →
  data_rows filename (generate_large_csv filename num_rows w).2 !! i = Some r →
  ∃ x, r = row_of x ∧ txn_ok (Z.of_nat i) x.
Proof.
  intros Hwr Hr.
  destruct (generate_written filename num_rows w Hwr) as (xs & Hfile & Hxs).
  unfold data_rows in Hr. rewrite Hfile in Hr. cbn [tail] in Hr.
  apply list_lookup_fmap_Some in Hr as (x & -> & Hx).
  exists x. split; [reflexivity|].
  destruct (Forall2_lookup_r _ _ _ _ _ Hxs Hx) as (j & Hj & Hok).
  apply lookup_seqZ in Hj as [-> _]. exact Hok.
Qed.

End Runs.

(* ================================================================= *)
(** ** Columns *)

(** The cell at each position of a data row is the local variable named by
    the header at that position. *)
Lemma row_of_by_name (x : Txn.t) (k : nat) (name : string) :
  headers !! k = Some name → row_of x !! k = value_of name x.
Proof.
  do 15 (destruct k as [|k]; [intros [= <-]; reflexivity|]).
  intros [=].
Qed.

Lemma field_row_of (x : Txn.t) (name : string) :
  name ∈ headers → field name (row_of x) = value_of name x.
Proof.
  intros Hin. unfold headers in Hin.
  repeat (apply elem_of_cons in Hin as [->|Hin]; [reflexivity|]).
  by apply elem_of_nil in Hin.
Qed.

(** C1, amended: on every run that can open its file, the first row
    written is the header with the 15 field names in the order
    transaction_id, timestamp, customer_id, product_id, category, quantity,
    unit_price, total_amount, payment_method, store_location,
    discount_applied, customer_age, customer_segment, rating, returned, and
    every later row holds, at each position, the value of the field the
    header names at that position. *)
Theorem header_then_rows_in_header_order {G} `{RandomSource G}
    (filename : string) (num_rows : Z) (w : world G) :
  w_writable w filename = true →
  head (file_rows filename (generate_large_csv filename num_rows w).2)
    = Some [ Str "transaction_id"; Str "timestamp"; Str "customer_id";
             Str "product_id"; Str "category"; Str "quantity"; Str "unit_price";
             Str "total_amount"; Str "payment_method"; Str "store_location";
             Str "discount_applied"; Str "customer_age"; Str "customer_segment";
             Str "rating"; Str "returned" ]
  ∧ Forall (λ r, ∃ x, r = row_of x
                      ∧ ∀ k name, headers !! k = Some name → r !! k = value_of name x)
           (data_rows filename (generate_large_csv filename num_rows w).2).
Proof.
  intros Hwr.
  destruct (generate_written filename num_rows w Hwr) as (xs & Hfile & _).
  unfold data_rows. rewrite Hfile. split; [reflexivity|].
  cbn [tail]. apply Forall_fmap, Forall_forall. intros x _.
  exists x. split; [reflexivity|]. apply row_of_by_name.
Qed.

Lemma header_then_rows_in_header_order_witness :
  w_writable sample_world "out.csv" = true
  ∧ head (file_rows "out.csv" (generate_large_csv "out.csv" 20 sample_world).2)
    = Some (Str <$> headers).
Proof.
  split; [reflexivity|].
  exact (proj1 (header_then_rows_in_header_order "out.csv" 20 sample_world eq_refl)).
Defined.

(** C1 as stated fails: the header the run writes has total_amount in the
    eighth column and discount_applied in the eleventh, where section 3 of
    the specification lists discount_applied eighth. *)
Lemma header_differs_from_section3_order :
  head (file_rows "out.csv" (generate_large_csv "out.csv" 20 sample_world).2)
    = Some (Str <$> headers)
  ∧ headers ≠ Spec.section3_columns
  ∧ headers !! 7%nat = Some "total_amount"
  ∧ Spec.section3_columns !! 7%nat = Some "discount_applied".
Proof.
  split; [vm_compute; reflexivity|].
  split; [discriminate|].
  split; reflexivity.
Qed.

(* ================================================================= *)
(** ** Discounts *)

Lemma discount_choices_zero (k : Z) (d : PyNum.num) :
  0 ≤ k < 7 → discount_choices !! Z.to_nat k = Some d →
  (no_discount d = true ↔ k < 3).
Proof.
  intros Hk Hd.
  assert (Hcases : k = 0 ∨ k = 1 ∨ k = 2 ∨ k = 3 ∨ k = 4 ∨ k = 5 ∨ k = 6) by lia.
  destruct Hcases as [->|[->|[->|[->|[->|[->| ->]]]]]];
    cbn in Hd; injection Hd as <-; cbn; split; (lia || discriminate || reflexivity).
Qed.

(** [choice] picks the element at the index the random source draws below
    the length of the list. *)
Lemma choice_by_index {G} `{RandomSource G} {A} (seq : list A) (w : world G) :
  seq ≠ [] →
  ∃ x, choice seq w
       = (Ok x, set_rng (randbelow (Z.of_nat (List.length seq)) (w_rng w)).2 w)
       ∧ seq !! Z.to_nat (randbelow (Z.of_nat (List.length seq)) (w_rng w)).1 = Some x.
Proof.
  intros Hne. destruct seq as [|x0 seq0]; [done|].
  pose proof (randbelow_range (Z.of_nat (List.length (x0 :: seq0))) (w_rng w)
                ltac:(simpl; lia)) as Hk.
  destruct (lookup_lt_is_Some_2 (x0 :: seq0)
              (Z.to_nat (randbelow (Z.of_nat (List.length (x0 :: seq0))) (w_rng w)).1))
    as [x Hx]; [lia|].
  exists x. split; [|exact Hx].
  unfold choice.
  rewrite (bind_ok (draw _) _ w _ _ eq_refl).
  unfold getitem.
  destruct (Z.leb_spec 0 (randbelow (Z.of_nat (List.length (x0 :: seq0))) (w_rng w)).1);
    [|lia].
  rewrite Hx.
  destruct (Z.leb_spec (- Z.of_nat (List.length (x0 :: seq0)))
              (randbelow (Z.of_nat (List.length (x0 :: seq0))) (w_rng w)).1); [|lia].
  reflexivity.
Qed.

(** The list in the code has seven candidates with three zeros, where the
    specification lists eight with four. *)
Lemma discount_candidates_are_seven :
  List.length discount_choices = 7%nat
  ∧ List.length (List.filter no_discount discount_choices) = 3%nat
  ∧ List.length Spec.discount_candidates = 8%nat
  ∧ List.length (List.filter no_discount Spec.discount_candidates) = 4%nat
  ∧ ¬ discount_choices ≡ₚ Spec.discount_candidates.
Proof.
  repeat (split; [reflexivity|]).
  intros Hperm. apply Permutation_length in Hperm. discriminate Hperm.
Qed.

(* ================================================================= *)
(** ** Runs that write no row, and runs that fail *)

(** C3, amended: with a row count of zero (or below) nothing divides by
    the progress interval: the interval is computed by a floor division by
    20, the loop body is never entered, and the run completes normally
    with the header as the only row of the file. *)
Theorem generate_without_rows_completes {G} `{RandomSource G}
    (filename : string) (num_rows : Z) (w : world G) :
  w_writable w filename = true →
  num_rows ≤ 0 →
  (generate_large_csv filename num_rows w).1 = Ok ()
  ∧ file_rows filename (generate_large_csv filename num_rows w).2 = [Str <$> headers]
  ∧ w_stdout (generate_large_csv filename num_rows w).2
    = w_stdout w ++ banner num_rows :: report_events filename num_rows.
Proof.
  intros Hwr Hn. rewrite (generate_nonpositive _ _ _ Hwr Hn). cbn [fst snd w_stdout].
  split; [reflexivity|]. split; [|reflexivity].
  rewrite <- (append_rows_nil filename (opened filename (w_fs w))).
  apply file_rows_opened.
Qed.

Lemma generate_without_rows_completes_witness :
  w_writable sample_world "out.csv" = true
  ∧ 0 ≤ 0
  ∧ file_rows "out.csv" (generate_large_csv "out.csv" 0 sample_world).2
    = [Str <$> headers].
Proof.
  split; [reflexivity|]. split; [lia|].
  refine (proj1 (proj2 (generate_without_rows_completes "out.csv" 0 sample_world eq_refl _))).
  lia.
Defined.

(** C3 as stated fails: the run with row count zero returns normally. *)
Lemma generate_zero_rows_returns :
  (generate_large_csv "out.csv" 0 sample_world).1 = Ok ()
  ∧ w_stdout (generate_large_csv "out.csv" 0 sample_world).2
    = [ Line "Generating 0 rows of data...";
        Line (newline +:+ "✅ Generated out.csv");
        File_size_line "out.csv";
        Line "📝 Columns: 15";
        Line "📈 Rows: 0" ].
Proof. split; vm_compute; reflexivity. Qed.

(** C4, amended: for every row count from 1 to 19 the progress interval is
    zero and the first iteration raises ZeroDivisionError on the modulo,
    after the header and after the first data row (TXN00000001) were
    written and before any progress line: the file is left with the
    header and that one row. *)
Theorem generate_below_twenty_raises {G} `{RandomSource G}
    (filename : string) (num_rows : Z) (w : world G) :
  w_writable w filename = true →
  1 ≤ num_rows ≤ 19 →
  (generate_large_csv filename num_rows w).1 = Raise ZeroDivisionError
  ∧ (∃ x, file_rows filename (generate_large_csv filename num_rows w).2
          = [Str <$> headers; row_of x]
          ∧ Txn.transaction_id x = "TXN00000001")
  ∧ w_stdout (generate_large_csv filename num_rows w).2
    = w_stdout w ++ [banner num_rows].
Proof.
  intros Hwr Hn.
  destruct (generate_below_twenty filename num_rows w Hwr Hn) as (x & g & E & Hx).
  rewrite E. cbn [fst snd w_stdout].
  split; [reflexivity|]. split; [|reflexivity].
  exists x. split; [apply file_rows_opened | exact (ok_id _ _ Hx)].
Qed.

Lemma generate_below_twenty_raises_witness :
  w_writable sample_world "out.csv" = true
  ∧ 1 ≤ 5 ≤ 19
  ∧ (generate_large_csv "out.csv" 5 sample_world).1 = Raise ZeroDivisionError.
Proof.
  split; [reflexivity|]. split; [lia|].
  refine (proj1 (generate_below_twenty_raises "out.csv" 5 sample_world eq_refl _)).
  lia.
Defined.

(** C4 as stated fails: the file of the failed run holds two rows, the
    header and the row of the first transaction. *)
Lemma failed_run_keeps_first_row :
  (generate_large_csv "out.csv" 5 sample_world).1 = Raise ZeroDivisionError
  ∧ List.length (file_rows "out.csv" (generate_large_csv "out.csv" 5 sample_world).2)
    = 2%nat
  ∧ (field "transaction_id"
       <$> file_rows "out.csv" (generate_large_csv "out.csv" 5 sample_world).2 !! 1%nat)
    = Some (Some (Str "TXN00000001")).
Proof. repeat split; vm_compute; reflexivity. Qed.

(* ================================================================= *)
(** ** Completed runs *)

Lemma row_of_transaction_id (x y : Txn.t) :
  row_of x = row_of y → Txn.transaction_id x = Txn.transaction_id y.
Proof. intros E. injection E. auto. Qed.

(** C5: a run with a positive row count N that completes has written the
    header first and then exactly N data rows, the row at position i being
    the one generated for index i: none is missing and none is
    repeated. *)
Theorem completed_run_writes_every_row {G} `{RandomSource G}
    (filename : string) (num_rows : Z) (w : world G) :
  0 < num_rows →
  (generate_large_csv filename num_rows w).1 = Ok () →
  ∃ xs,
    file_rows filename (generate_large_csv filename num_rows w).2
      = (Str <$> headers) :: (row_of <$> xs)
    ∧ List.length xs = Z.to_nat num_rows
    ∧ (∀ i x, xs !! i = Some x →
              Txn.transaction_id x = format_transaction_id (Z.of_nat i))
    ∧ NoDup (row_of <$> xs).
Proof.
  intros Hn Hok.
  destruct (w_writable w filename) eqn:Hwr;
    [|by rewrite (generate_unwritable _ _ _ Hwr) in Hok].
  destruct (Z.le_gt_cases num_rows 19) as [Hs|Hl].
  { destruct (generate_below_twenty filename num_rows w Hwr ltac:(lia))
      as (x & g & E & _).
    by rewrite E in Hok. }
  destruct (generate_from_twenty filename num_rows w Hwr ltac:(lia))
    as (xs & g & E & Hxs).
  assert (Hid : ∀ i x, xs !! i = Some x →
                       Txn.transaction_id x = format_transaction_id (Z.of_nat i)).
  { intros i x Hx.
    destruct (Forall2_lookup_r _ _ _ _ _ Hxs Hx) as (j & Hj & Hok').
    apply lookup_seqZ in Hj as [-> _]. exact (ok_id _ _ Hok'). }
  exists xs. rewrite E. cbn [snd].
  split; [apply file_rows_opened|].
  split.
  { pose proof (Forall2_length _ _ _ Hxs) as Hlen.
    rewrite length_seqZ in Hlen. lia. }
  split; [exact Hid|].
  apply NoDup_alt. intros i j r Hi Hj.
  apply list_lookup_fmap_Some in Hi as (xi & -> & Hxi).
  apply list_lookup_fmap_Some in Hj as (xj & Exy & Hxj).
  apply row_of_transaction_id in Exy.
  rewrite (Hid _ _ Hxi), (Hid _ _ Hxj) in Exy.
  apply format_transaction_id_inj in Exy; lia.
Qed.

Lemma completed_run_writes_every_row_witness :
  0 < 20
  ∧ (generate_large_csv "out.csv" 20 sample_world).1 = Ok ()
  ∧ ∃ xs,
      file_rows "out.csv" (generate_large_csv "out.csv" 20 sample_world).2
        = (Str <$> headers) :: (row_of <$> xs)
      ∧ List.length xs = Z.to_nat 20
      ∧ (∀ i x, xs !! i = Some x →
                Txn.transaction_id x = format_transaction_id (Z.of_nat i))
      ∧ NoDup (row_of <$> xs).
Proof.
  split; [lia|]. split; [vm_compute; reflexivity|].
  apply (completed_run_writes_every_row "out.csv" 20 sample_world); [lia|].
  vm_compute. reflexivity.
Defined.

(** A run on a writable path with at least 20 rows does complete. *)
Lemma generate_from_twenty_completes {G} `{RandomSource G}
    (filename : string) (num_rows : Z) (w : world G) :
  w_writable w filename = true →
  20 ≤ num_rows →
  (generate_large_csv filename num_rows w).1 = Ok ().
Proof.
  intros Hwr Hn.
  destruct (generate_from_twenty filename num_rows w Hwr Hn) as (xs & g & E & _).
  by rewrite E.
Qed.

(* ================================================================= *)
(** ** Every generated row *)

(** C6: in every generated row, total_amount is
    round(quantity * unit_price * (1 - discount_applied), 2) of the
    quantity, unit_price and discount_applied of that same row, the
    rounding being applied to the product. *)
Theorem total_amount_is_rounded_product {G} `{RandomSource G}
    (filename : string) (num_rows : Z) (w : world G) (i : nat) (r : row) :
  w_writable w filename = true →
  data_rows filename (generate_large_csv filename num_rows w).2 !! i = Some r →
  ∃ quantity unit_price discount_applied,
    field "quantity" r = Some (Num (PyNum.Int quantity))
    ∧ field "unit_price" r = Some (Num unit_price)
    ∧ field "discount_applied" r = Some (Num discount_applied)
    ∧ field "total_amount" r
      = Some (Num (PyNum.round
                     (PyNum.mul (PyNum.mul (PyNum.Int quantity) unit_price)
                                (PyNum.sub (PyNum.Int 1) discount_applied))
                     2)).
Proof.
  intros Hwr Hr.
  destruct (data_row_inv filename num_rows w i r Hwr Hr) as (x & -> & Hx).
  exists (Txn.quantity x), (Txn.unit_price x), (Txn.discount_applied x).
  repeat (split; [reflexivity|]).
  cbn. f_equal. f_equal. exact (ok_total _ _ Hx).
Qed.

Lemma total_amount_is_rounded_product_witness :
  ∃ r, data_rows "out.csv" (generate_large_csv "out.csv" 20 sample_world).2 !! 0%nat
       = Some r
       ∧ field "quantity" r = Some (Num (PyNum.Int 2))
       ∧ field "unit_price" r = Some (Num (PyNum.Float 502.99))
       ∧ field "discount_applied" r = Some (Num (PyNum.Float 0.1))
       ∧ field "total_amount" r = Some (Num (PyNum.Float 905.38))
       ∧ ∃ quantity unit_price discount_applied,
           field "quantity" r = Some (Num (PyNum.Int quantity))
           ∧ field "unit_price" r = Some (Num unit_price)
           ∧ field "discount_applied" r = Some (Num discount_applied)
           ∧ field "total_amount" r
             = Some (Num (PyNum.round
                            (PyNum.mul (PyNum.mul (PyNum.Int quantity) unit_price)
                                       (PyNum.sub (PyNum.Int 1) discount_applied))
                            2)).
Proof.
  eexists. split; [vm_compute; reflexivity|].
  do 4 (split; [vm_compute; reflexivity|]).
  refine (total_amount_is_rounded_product "out.csv" 20 sample_world 0 _ eq_refl _).
  vm_compute. reflexivity.
Defined.

(** C8: in every generated row, whatever the random source draws, quantity
    is an integer from 1 to 10, customer_age an integer from 18 to 80, and
    unit_price a float from 5.99 to 999.99. *)
Theorem quantity_age_price_in_range {G} `{RandomSource G}
    (filename : string) (num_rows : Z) (w : world G) (i : nat) (r : row) :
  w_writable w filename = true →
  data_rows filename (generate_large_csv filename num_rows w).2 !! i = Some r →
  ∃ quantity customer_age unit_price,
    field "quantity" r = Some (Num (PyNum.Int quantity))
    ∧ 1 ≤ quantity ≤ 10
    ∧ field "customer_age" r = Some (Num (PyNum.Int customer_age))
    ∧ 18 ≤ customer_age ≤ 80
    ∧ field "unit_price" r = Some (Num (PyNum.Float unit_price))
    ∧ (5.99 <=? unit_price)%float && (unit_price <=? 999.99)%float = true.
Proof.
  intros Hwr Hr.
  destruct (data_row_inv filename num_rows w i r Hwr Hr) as (x & -> & Hx).
  destruct (ok_price _ _ Hx) as (u & Hu & Hprice).
  exists (Txn.quantity x), (Txn.customer_age x), (PyNum.round_float u 2).
  split; [reflexivity|]. split; [exact (ok_quantity _ _ Hx)|].
  split; [reflexivity|]. split; [exact (ok_age _ _ Hx)|].
  split; [cbn; by rewrite Hprice|].
  exact (round_price_in_range u Hu).
Qed.

Lemma quantity_age_price_in_range_witness :
  ∃ r, data_rows "out.csv" (generate_large_csv "out.csv" 20 sample_world).2 !! 0%nat
       = Some r
       ∧ ∃ quantity customer_age unit_price,
           field "quantity" r = Some (Num (PyNum.Int quantity))
           ∧ 1 ≤ quantity ≤ 10
           ∧ field "customer_age" r = Some (Num (PyNum.Int customer_age))
           ∧ 18 ≤ customer_age ≤ 80
           ∧ field "unit_price" r = Some (Num (PyNum.Float unit_price))
           ∧ (5.99 <=? unit_price)%float && (unit_price <=? 999.99)%float = true.
Proof.
  eexists. split; [vm_compute; reflexivity|].
  refine (quantity_age_price_in_range "out.csv" 20 sample_world 0 _ eq_refl _).
  vm_compute. reflexivity.
Defined.

(** Every row index of a run of at least 20 rows has its row in the
    file. *)
Lemma data_row_at {G} `{RandomSource G}
    (filename : string) (num_rows : Z) (w : world G) (i : Z) :
  w_writable w filename = true →
  20 ≤ num_rows →
  0 ≤ i < num_rows →
  ∃ r, data_rows filename (generate_large_csv filename num_rows w).2 !! Z.to_nat i = Some r
       ∧ field "transaction_id" r = Some (Str (format_transaction_id i)).
Proof.
  intros Hwr Hn Hi.
  destruct (generate_from_twenty filename num_rows w Hwr Hn) as (xs & g & E & Hxs).
  pose proof (Forall2_length _ _ _ Hxs) as Hlen. rewrite length_seqZ in Hlen.
  destruct (lookup_lt_is_Some_2 xs (Z.to_nat i)) as [x Hx]; [lia|].
  destruct (Forall2_lookup_r _ _ _ _ _ Hxs Hx) as (j & Hj & Hok).
  apply lookup_seqZ in Hj as [-> _].
  exists (row_of x). split.
  - rewrite E. unfold data_rows. cbn [snd]. rewrite file_rows_opened. cbn [tail].
    rewrite list_lookup_fmap, Hx. reflexivity.
  - change (Some (Str (Txn.transaction_id x)) = Some (Str (format_transaction_id i))).
    rewrite (ok_id _ _ Hok). do 3 f_equal. lia.
Qed.

(** C7, amended: the row at index i carries the transaction id made of TXN
    and i + 1 in the format 08d (zero-padded to 8 digits, longer numbers
    in full); consequently the ids of any two rows differ and the numbers
    they carry increase strictly with the row index, and the ids increase
    strictly as strings as long as the number stays below 10^8. *)
Theorem transaction_ids_number_the_rows {G} `{RandomSource G}
    (filename : string) (num_rows : Z) (w : world G) :
  w_writable w filename = true →
  (∀ i r,
     data_rows filename (generate_large_csv filename num_rows w).2 !! i = Some r →
     field "transaction_id" r = Some (Str ("TXN" +:+ Fmt.d0 8 (Z.of_nat i + 1))))
  ∧ (∀ i j : nat,
       (i < j)%nat →
       "TXN" +:+ Fmt.d0 8 (Z.of_nat i + 1) ≠ "TXN" +:+ Fmt.d0 8 (Z.of_nat j + 1)
       ∧ (∃ a b, txn_number ("TXN" +:+ Fmt.d0 8 (Z.of_nat i + 1)) = Some a
                 ∧ txn_number ("TXN" +:+ Fmt.d0 8 (Z.of_nat j + 1)) = Some b
                 ∧ (a < b)%N)
       ∧ (Z.of_nat j + 1 < 10 ^ 8 →
          String.ltb ("TXN" +:+ Fmt.d0 8 (Z.of_nat i + 1))
                     ("TXN" +:+ Fmt.d0 8 (Z.of_nat j + 1)) = true)).
Proof.
  intros Hwr. split.
  - intros i r Hr.
    destruct (data_row_inv filename num_rows w i r Hwr Hr) as (x & -> & Hx).
    cbn. f_equal. f_equal. exact (ok_id _ _ Hx).
  - intros i j Hij.
    change ("TXN" +:+ Fmt.d0 8 (Z.of_nat i + 1)) with (format_transaction_id (Z.of_nat i)).
    change ("TXN" +:+ Fmt.d0 8 (Z.of_nat j + 1)) with (format_transaction_id (Z.of_nat j)).
    split; [|split].
    + intros E. apply format_transaction_id_inj in E; lia.
    + exists (Z.to_N (Z.of_nat i + 1)), (Z.to_N (Z.of_nat j + 1)).
      rewrite !txn_number_format by lia. repeat split. lia.
    + intros Hj. apply transaction_id_lt; lia.
Qed.

Lemma transaction_ids_number_the_rows_witness :
  w_writable sample_world "out.csv" = true
  ∧ (field "transaction_id"
       <$> data_rows "out.csv" (generate_large_csv "out.csv" 20 sample_world).2 !! 19%nat)
    = Some (Some (Str "TXN00000020"))
  ∧ ∀ i r,
      data_rows "out.csv" (generate_large_csv "out.csv" 20 sample_world).2 !! i = Some r →
      field "transaction_id" r = Some (Str ("TXN" +:+ Fmt.d0 8 (Z.of_nat i + 1))).
Proof.
  split; [reflexivity|]. split; [vm_compute; reflexivity|].
  exact (proj1 (transaction_ids_number_the_rows "out.csv" 20 sample_world eq_refl)).
Defined.

(** C7 as stated fails for the ids as strings: in a run of 100,000,000
    rows the last row carries TXN100000000, which sorts before the
    TXN99999999 of the row above it. *)
Lemma ids_out_of_order_at_nine_digits :
  ∃ ri rj,
    data_rows "out.csv" (generate_large_csv "out.csv" 100000000 sample_world).2
      !! Z.to_nat 99999998 = Some ri
    ∧ data_rows "out.csv" (generate_large_csv "out.csv" 100000000 sample_world).2
      !! Z.to_nat 99999999 = Some rj
    ∧ field "transaction_id" ri = Some (Str "TXN99999999")
    ∧ field "transaction_id" rj = Some (Str "TXN100000000")
    ∧ String.ltb "TXN100000000" "TXN99999999" = true.
Proof.
  destruct (data_row_at "out.csv" 100000000 sample_world 99999998
              eq_refl ltac:(lia) ltac:(lia)) as (ri & Hri & Hidi).
  destruct (data_row_at "out.csv" 100000000 sample_world 99999999
              eq_refl ltac:(lia) ltac:(lia)) as (rj & Hrj & Hidj).
  exists ri, rj.
  split; [exact Hri|]. split; [exact Hrj|].
  split; [exact Hidi|]. split; [exact Hidj|].
  reflexivity.
Qed.

(* ================================================================= *)
(** ** The entry point *)

(** C9, amended: for every command-line selector whose lower-case form is
    not one of small, medium, large or xlarge, the program prints the usage
    line and does nothing else: the generator is not called, no file is
    written, no exception is raised. *)
Theorem unknown_selector_prints_usage {G} `{RandomSource G}
    (prog arg : string) (rest : list string) (w : world G) :
  lower arg ≠ "small" →
  lower arg ≠ "medium" →
  lower arg ≠ "large" →
  lower arg ≠ "xlarge" →
  main (prog :: arg :: rest) w = (Ok (), set_stdout (w_stdout w ++ [Line usage]) w).
Proof.
  intros Hs Hm Hl Hx. unfold main.
  destruct (String.eqb_spec (lower arg) "small"); [done|].
  destruct (String.eqb_spec (lower arg) "medium"); [done|].
  destruct (String.eqb_spec (lower arg) "large"); [done|].
  destruct (String.eqb_spec (lower arg) "xlarge"); [done|].
  reflexivity.
Qed.

Lemma unknown_selector_prints_usage_witness :
  main [ "generate-large-csv.py"; "xyz" ] sample_world
  = (Ok (), set_stdout [Line usage] sample_world).
Proof.
  apply (unknown_selector_prints_usage "generate-large-csv.py" "xyz" [] sample_world);
    discriminate.
Defined.

(** A selector is accepted in any letter case. *)
Lemma known_selector_runs_generator {G} `{RandomSource G}
    (prog arg : string) (rest : list string) :
  main (prog :: arg :: rest) =
    if String.eqb (lower arg) "small"
    then generate_large_csv "test-datasets/large/transactions-small.csv" 10000
    else if String.eqb (lower arg) "medium"
    then generate_large_csv "test-datasets/large/transactions-medium.csv" 100000
    else if String.eqb (lower arg) "large"
    then generate_large_csv "test-datasets/large/transactions-large.csv" 1000000
    else if String.eqb (lower arg) "xlarge"
    then generate_large_csv "test-datasets/large/transactions-xlarge.csv" 5000000
    else print usage.
Proof. reflexivity. Qed.

(** C9 as stated fails: SMALL is not one of the four selectors as written,
    and the program runs the generator on it, which writes the file of
    10,000 rows. *)
Lemma uppercase_selector_runs_generator :
  "SMALL" ≠ "small" ∧ "SMALL" ≠ "medium" ∧ "SMALL" ≠ "large" ∧ "SMALL" ≠ "xlarge"
  ∧ main (G:=tape) [ "generate-large-csv.py"; "SMALL" ]
    = generate_large_csv "test-datasets/large/transactions-small.csv" 10000
  ∧ (main [ "generate-large-csv.py"; "SMALL" ] sample_world).1 = Ok ()
  ∧ ∃ xs,
      file_rows "test-datasets/large/transactions-small.csv"
        (main [ "generate-large-csv.py"; "SMALL" ] sample_world).2
      = (Str <$> headers) :: (row_of <$> xs)
      ∧ List.length xs = Z.to_nat 10000.
Proof.
  do 4 (split; [discriminate|]).
  split; [reflexivity|].
  change (main [ "generate-large-csv.py"; "SMALL" ] sample_world)
    with (generate_large_csv "test-datasets/large/transactions-small.csv" 10000
            sample_world).
  destruct (generate_from_twenty
              "test-datasets/large/transactions-small.csv" 10000 sample_world
              eq_refl ltac:(lia)) as (xs & g & E & Hxs).
  rewrite E. cbn [fst snd].
  split; [reflexivity|].
  exists xs. split; [apply file_rows_opened|].
  pose proof (Forall2_length _ _ _ Hxs) as Hlen.
  rewrite length_seqZ in Hlen. lia.
Qed.

(* ================================================================= *)
(** ** Progress output *)

(** With [num_rows] a positive multiple of 20, the rows at which a
    twentieth of the file is completed are the multiples of
    [num_rows / 20]. *)
Lemma crosses_twentieth_multiple (num_rows c : Z) :
  0 < num_rows →
  num_rows `mod` 20 = 0 →
  (c `mod` (num_rows `div` 20) = 0 ↔ Spec.crosses_twentieth num_rows c = true).
Proof.
  intros Hn Hmod. unfold Spec.crosses_twentieth.
  pose proof (Z.div_mod num_rows 20 ltac:(lia)) as Hdm.
  set (k := num_rows `div` 20) in *.
  assert (Hk : 0 < k) by lia.
  replace num_rows with (20 * k) by lia.
  rewrite !Z.div_mul_cancel_l by lia.
  rewrite Z.ltb_lt.
  pose proof (Z.div_mod c k ltac:(lia)) as Hc.
  pose proof (Z.mod_pos_bound c k Hk) as Hr.
  split.
  - intros Hz.
    assert (Hprev : (c - 1) `div` k = c `div` k - 1).
    { symmetry. apply (Z.div_unique (c - 1) k (c `div` k - 1) (k - 1)); lia. }
    lia.
  - intros Hlt.
    destruct (Z.eq_dec (c `mod` k) 0) as [Hz|Hnz]; [exact Hz|].
    assert (Hprev : (c - 1) `div` k = c `div` k).
    { symmetry. apply (Z.div_unique (c - 1) k (c `div` k) (c `mod` k - 1)); lia. }
    lia.
Qed.

(** C10, amended: a run of at least 20 rows prints, between its first line
    and its closing report, one progress line (the percentage and the
    number of rows done) immediately followed by a flush after each row
    whose number is a multiple of row_count // 20, and nothing after the
    other rows; when row_count is a multiple of 20 these rows are exactly
    those that complete a twentieth of the file. *)
Theorem progress_at_multiples_of_interval {G} `{RandomSource G}
    (filename : string) (num_rows : Z) (w : world G) :
  w_writable w filename = true →
  20 ≤ num_rows →
  w_stdout (generate_large_csv filename num_rows w).2
  = w_stdout w
    ++ banner num_rows
       :: flat_map (λ c, if c `mod` (num_rows `div` 20) =? 0
                         then [ Line ("Progress: "
                                      +:+ Fmt.f0 (PyNum.truediv (PyNum.Int c)
                                                                (PyNum.Int num_rows)
                                                  * PyNum.Z2F 100)%float
                                      +:+ "% (" +:+ Fmt.comma c +:+ " rows)");
                                Flushed ]
                         else [])
                  (seqZ 1 num_rows)
       ++ report_events filename num_rows
  ∧ (num_rows `mod` 20 = 0 →
     ∀ c, c `mod` (num_rows `div` 20) = 0 ↔ Spec.crosses_twentieth num_rows c = true).
Proof.
  intros Hwr Hn.
  destruct (generate_from_twenty filename num_rows w Hwr Hn) as (xs & g & E & _).
  rewrite E. cbn [snd w_stdout]. split.
  - unfold progress_events. rewrite Z2Nat.id by lia. reflexivity.
  - intros Hmod c. apply crosses_twentieth_multiple; [lia | exact Hmod].
Qed.

Lemma progress_at_multiples_of_interval_witness :
  w_writable sample_world "out.csv" = true
  ∧ 20 ≤ 40
  ∧ List.filter is_progress
      (w_stdout (generate_large_csv "out.csv" 40 sample_world).2)
    = Line <$> [ "Progress: 5% (2 rows)"; "Progress: 10% (4 rows)";
                 "Progress: 15% (6 rows)"; "Progress: 20% (8 rows)";
                 "Progress: 25% (10 rows)"; "Progress: 30% (12 rows)";
                 "Progress: 35% (14 rows)"; "Progress: 40% (16 rows)";
                 "Progress: 45% (18 rows)"; "Progress: 50% (20 rows)";
                 "Progress: 55% (22 rows)"; "Progress: 60% (24 rows)";
                 "Progress: 65% (26 rows)"; "Progress: 70% (28 rows)";
                 "Progress: 75% (30 rows)"; "Progress: 80% (32 rows)";
                 "Progress: 85% (34 rows)"; "Progress: 90% (36 rows)";
                 "Progress: 95% (38 rows)"; "Progress: 100% (40 rows)" ].
Proof.
  split; [reflexivity|]. split; [lia|].
  rewrite (proj1 (progress_at_multiples_of_interval "out.csv" 40 sample_world
                    eq_refl ltac:(lia))).
  vm_compute. reflexivity.
Defined.

(** C10 as stated fails: of 50 rows, the third completes the first
    twentieth (2.5 rows), yet the run prints its first progress lines after
    the second and the fourth row, and 25 progress lines in all. *)
Lemma boundary_crossed_without_progress :
  Spec.crosses_twentieth 50 3 = true
  ∧ 3 `mod` (50 `div` 20) ≠ 0
  ∧ take 2 (List.filter is_progress
              (w_stdout (generate_large_csv "out.csv" 50 sample_world).2))
    = [ Line "Progress: 4% (2 rows)"; Line "Progress: 8% (4 rows)" ]
  ∧ List.length (List.filter is_progress
                   (w_stdout (generate_large_csv "out.csv" 50 sample_world).2))
    = 25%nat.
Proof.
  split; [reflexivity|]. split; [discriminate|].
  split; vm_compute; reflexivity.
Qed.

(* ================================================================= *)
(** ** The draws behind a row *)

Section Recording.
Context {G : Type} `{RandomSource G}.

Lemma records_ret {A} (a : A) (P : A → list (Z * Z) → Prop) :
  P a [] → records (G:=G) (mret a) P.
Proof.
  intros Pa w. exists a, (w_rng w).1, [].
  split; [|exact Pa].
  destruct w as [[g l] fs wr out]. cbn. by rewrite app_nil_r.
Qed.

Lemma records_bind {A B} (m : M (recording G) A) (f : A → M (recording G) B)
    (P : A → list (Z * Z) → Prop) (Q : B → list (Z * Z) → Prop) :
  records m P →
  (∀ a l1, P a l1 → records (f a) (λ b l2, Q b (l1 ++ l2))) →
  records (m ≫= f) Q.
Proof.
  intros Hm Hf w.
  destruct (Hm w) as (a & g & l1 & E & Pa).
  destruct (Hf a l1 Pa (set_rng (g, (w_rng w).2 ++ l1) w)) as (b & g' & l2 & E' & Qb).
  exists b, g', (l1 ++ l2). split; [|exact Qb].
  rewrite (bind_ok _ _ _ _ _ E), E'.
  destruct w as [[g0 l0] fs wr out]. cbn. by rewrite app_assoc.
Qed.

(** An integer draw below [n] adds [(n, k)] to the record, [k] its
    answer. *)
Lemma records_randbelow (n : Z) :
  0 < n →
  records (draw (randbelow n)) (λ k l, l = [(n, k)] ∧ 0 ≤ k < n).
Proof.
  intros Hn w.
  exists (randbelow n (w_rng w).1).1, (randbelow n (w_rng w).1).2,
    [(n, (randbelow n (w_rng w).1).1)].
  split; [reflexivity|]. split; [reflexivity|].
  apply randbelow_range. exact Hn.
Qed.

Lemma records_randint (a b : Z) :
  a ≤ b →
  records (randint a b) (λ v l, ∃ k, l = [(b - a + 1, k)] ∧ a ≤ v ≤ b).
Proof.
  intros Hab. unfold randint.
  eapply records_bind; [apply records_randbelow; lia|].
  intros k l1 [-> Hk]. apply records_ret.
  exists k. rewrite app_nil_r. split; [reflexivity | lia].
Qed.

(** [choice] makes one integer draw below the length of the list and
    returns the element at the index drawn. *)
Lemma records_choice {A} (seq : list A) :
  seq ≠ [] →
  records (choice seq)
    (λ x l, ∃ k, l = [(Z.of_nat (List.length seq), k)]
                 ∧ 0 ≤ k < Z.of_nat (List.length seq)
                 ∧ seq !! Z.to_nat k = Some x).
Proof.
  intros Hne. destruct seq as [|x0 seq0]; [done|].
  unfold choice.
  eapply records_bind; [apply records_randbelow; simpl; lia|].
  intros k l1 [-> Hk].
  destruct (lookup_lt_is_Some_2 (x0 :: seq0) (Z.to_nat k)) as [x Hx]; [lia|].
  unfold getitem.
  destruct (Z.leb_spec 0 k); [|lia]. rewrite Hx.
  destruct (Z.leb_spec (- Z.of_nat (List.length (x0 :: seq0))) k); [|lia].
  apply records_ret. exists k. rewrite app_nil_r. auto.
Qed.

(** The float draws add nothing to the record. *)
Lemma records_random :
  records (draw random) (λ _ l, l = []).
Proof.
  intros w. exists (random (w_rng w).1).1, (random (w_rng w).1).2, [].
  split; [|reflexivity].
  destruct w as [[g l] fs wr out]. cbn. by rewrite app_nil_r.
Qed.

Lemma records_uniform (a b : float) :
  records (draw (uniform a b)) (λ _ l, l = []).
Proof.
  intros w. exists (uniform a b (w_rng w).1).1, (uniform a b (w_rng w).1).2, [].
  split; [|reflexivity].
  destruct w as [[g l] fs wr out]. cbn. by rewrite app_nil_r.
Qed.

Lemma records_if {A} (b : bool) (m1 m2 : M (recording G) A)
    (P : A → list (Z * Z) → Prop) :
  records m1 P → records m2 P → records (if b then m1 else m2) P.
Proof. by destruct b. Qed.

(** One iteration makes thirteen integer draws; the eighth is the draw
    below 7 of [choice] on the discounts, and the row's discount is the
    candidate at the index it answers. *)
Lemma gen_row_records (i : Z) : records (gen_row i) row_draws.
Proof.
  unfold gen_row. cbv zeta.
  eapply records_bind; [apply records_randint; lia | intros days ? (k1 & -> & _)].
  eapply records_bind; [apply records_randint; lia | intros hours ? (k2 & -> & _)].
  eapply records_bind; [apply records_randint; lia | intros minutes ? (k3 & -> & _)].
  eapply records_bind; [apply records_randint; lia | intros c ? (k4 & -> & _)].
  eapply records_bind; [apply records_randint; lia | intros p ? (k5 & -> & _)].
  eapply records_bind; [apply records_choice; done | intros cat ? (k6 & -> & _)].
  eapply records_bind; [apply records_randint; lia | intros q ? (k7 & -> & _)].
  eapply records_bind; [apply records_uniform | intros u ? ->].
  eapply records_bind; [apply records_choice; done | intros d ? (k & -> & Hk & Hd)].
  eapply records_bind; [apply records_choice; done | intros pm ? (k9 & -> & _)].
  eapply records_bind; [apply records_choice; done | intros loc ? (k10 & -> & _)].
  eapply records_bind; [apply records_randint; lia | intros age ? (k11 & -> & _)].
  eapply records_bind; [apply records_choice; done | intros seg ? (k12 & -> & _)].
  eapply records_bind; [apply records_random | intros present ? ->].
  eapply records_bind.
  { apply (records_if _ _ _ (λ _ l, l = [])).
    - eapply records_bind; [apply records_uniform | intros v ? ->].
      by apply records_ret.
    - by apply records_ret. }
  intros rating ? ->.
  eapply records_bind; [apply records_choice; done | intros ret ? (k13 & -> & _)].
  apply records_ret.
  split; [reflexivity|].
  exists k. split; [reflexivity|]. split; [exact Hk | exact Hd].
Qed.

(** The rows a loop leaves in the file and the draws it adds to the
    record, iteration by iteration, whether it runs to its end or fails. *)
Lemma for_from_records filename num_rows interval :
  ∀ n i (w : world (recording G)),
  ∃ xs ls r g out,
    for_from n i (loop_body filename num_rows interval) w =
      (r, mk_world (g, (w_rng w).2 ++ List.concat ls)
            (append_rows filename (row_of <$> xs) (w_fs w)) (w_writable w) out)
    ∧ Forall2 row_draws xs ls.
Proof.
  intros n. induction n as [|n IH]; intros i w.
  - exists [], [], (Ok ()), (w_rng w).1, (w_stdout w). split; [|constructor].
    destruct w as [[g0 l0] fs wr out]. cbn.
    by rewrite append_rows_nil, app_nil_r.
  - destruct (gen_row_records i w) as (x & g & l & E & Hx).
    destruct (Z.eq_dec interval 0) as [->|Hiv].
    + exists [x], [l], (Raise ZeroDivisionError), g, (w_stdout w). split.
      * cbn [for_from]. erewrite bind_raise; [reflexivity|].
        unfold loop_body. rewrite (bind_ok _ _ _ _ _ E).
        destruct w as [g0 fs wr out]. cbn. by rewrite app_nil_r.
      * constructor; [exact Hx | constructor].
    + set (out1 := w_stdout w ++ progress_events num_rows interval (i + 1) 1).
      assert (E1 : loop_body filename num_rows interval i w =
                   (Ok (), mk_world (g, (w_rng w).2 ++ l)
                             (append_rows filename [row_of x] (w_fs w))
                             (w_writable w) out1)).
      { unfold loop_body. rewrite (bind_ok _ _ _ _ _ E).
        unfold py_mod. destruct (Z.eqb_spec interval 0) as [|_]; [done|].
        unfold out1.
        rewrite progress_events_cons, progress_events_nil, app_nil_r.
        destruct w as [g0 fs wr out].
        unfold mbind, M_bind, mret, M_ret, writerow, print, flush. cbn.
        destruct ((i + 1) `mod` interval =? 0); cbn.
        - by rewrite <- app_assoc.
        - by rewrite app_nil_r. }
      destruct (IH (i + 1) (mk_world (g, (w_rng w).2 ++ l)
                              (append_rows filename [row_of x] (w_fs w))
                              (w_writable w) out1))
        as (xs & ls & r & g2 & out2 & E2 & Hxs).
      exists (x :: xs), (l :: ls), r, g2, out2. split.
      * cbn [for_from]. rewrite (bind_ok _ _ _ _ _ E1). rewrite E2.
        cbn [w_rng w_fs w_writable snd List.concat].
        by rewrite append_rows_app, <- app_assoc.
      * constructor; assumption.
Qed.

(** A run on a writable path: the rows below the header and, for each of
    them in order, the draws its iteration added to the record. *)
Lemma generate_records filename num_rows (w : world (recording G)) :
  w_writable w filename = true →
  ∃ xs ls,
    file_rows filename (generate_large_csv filename num_rows w).2
      = (Str <$> headers) :: (row_of <$> xs)
    ∧ (w_rng (generate_large_csv filename num_rows w).2).2 = (w_rng w).2 ++ List.concat ls
    ∧ Forall2 row_draws xs ls.
Proof.
  intros Hwr. destruct w as [gl fs wr out]. cbn in Hwr.
  rewrite generate_prelude by exact Hwr. unfold for_range.
  destruct (for_from_records filename num_rows (num_rows `div` 20) (Z.to_nat num_rows) 0
              (mk_world gl (opened filename fs) wr (out ++ [banner num_rows])))
    as (xs & ls & r & g1 & out1 & E & Hxs).
  cbn [w_rng w_fs w_writable] in E.
  exists xs, ls.
  destruct r as [[]|e].
  - rewrite (bind_ok _ _ _ _ _ E), report_ok. cbn [snd w_rng].
    split; [apply file_rows_opened|]. split; [reflexivity | exact Hxs].
  - rewrite (bind_raise _ _ _ _ _ E). cbn [snd w_rng].
    split; [apply file_rows_opened|]. split; [reflexivity | exact Hxs].
Qed.

End Recording.

(** In a list of blocks of [n] entries each, entry [j] of block [i] is
    entry [n * i + j] of the whole. *)
Lemma lookup_concat_blocks {A} (n : nat) (ls : list (list A)) :
  Forall (λ l, List.length l = n) ls →
  ∀ i l j, ls !! i = Some l → (j < n)%nat →
  List.concat ls !! (n * i + j)%nat = l !! j.
Proof.
  induction 1 as [|l0 ls Hl0 _ IH]; intros i l j Hi Hj; [done|].
  destruct i as [|i]; cbn [List.concat].
  - injection Hi as ->. rewrite Nat.mul_0_r, Nat.add_0_l.
    apply lookup_app_l. lia.
  - cbn in Hi. rewrite lookup_app_r by lia.
    replace (n * S i + j - List.length l0)%nat with (n * i + j)%nat by lia.
    by apply IH.
Qed.

(* ================================================================= *)
(** ** Discounts: what the code draws *)

(** C2, what the code does: the discount of every generated row is the
    candidate, in the seven-element list [0, 0, 0, 0.1, 0.15, 0.2, 0.25],
    at the index answered by the draw below 7 that the row's iteration
    makes for it (the eighth of its thirteen integer draws); only the
    indices 0, 1 and 2, three of the seven, give no discount.  With each
    index as likely as the others that is 43% of the rows, not most of
    them. *)
Theorem discount_chosen_among_seven {G} `{RandomSource G}
    (filename : string) (num_rows : Z) (w : world (recording G)) (i : nat) (r : row) :
  w_writable w filename = true →
  data_rows filename (generate_large_csv filename num_rows w).2 !! i = Some r →
  (∃ d k,
     (w_rng (generate_large_csv filename num_rows w).2).2
       !! (List.length (w_rng w).2 + (13 * i + 7))%nat = Some (7, k)
     ∧ 0 ≤ k < 7
     ∧ field "discount_applied" r = Some (Num d)
     ∧ discount_choices !! Z.to_nat k = Some d
     ∧ (no_discount d = true ↔ k < 3))
  ∧ List.length discount_choices = 7%nat
  ∧ List.length (List.filter no_discount discount_choices) = 3%nat.
Proof.
  intros Hwr Hr.
  split; [|split; reflexivity].
  destruct (generate_records filename num_rows w Hwr) as (xs & ls & Hfile & Hlog & Hxs).
  unfold data_rows in Hr. rewrite Hfile in Hr. cbn [tail] in Hr.
  apply list_lookup_fmap_Some in Hr as (x & -> & Hx).
  destruct (Forall2_lookup_l _ _ _ _ _ Hxs Hx) as (l & Hl & Hlen & k & Hk7 & Hk & Hd).
  exists (Txn.discount x), k.
  split.
  { rewrite Hlog, lookup_app_r by lia.
    replace (List.length (w_rng w).2 + (13 * i + 7) - List.length (w_rng w).2)%nat
      with (13 * i + 7)%nat by lia.
    rewrite (lookup_concat_blocks 13 ls) with (l := l); [exact Hk7 | | exact Hl | lia].
    apply Forall_forall. intros l' Hin.
    apply list_elem_of_lookup in Hin as [j Hj].
    destruct (Forall2_lookup_r _ _ _ _ _ Hxs Hj) as (x' & _ & Hlen' & _).
    exact Hlen'. }
  split; [exact Hk|]. split; [reflexivity|]. split; [exact Hd|].
  exact (discount_choices_zero k _ Hk Hd).
Qed.

(** The failing input of C2: on the sample tape the draw for the discount
    of the first row answers 3, the row carries the discount 0.1, and so
    does every run whose draw answers one of the four indices from 3 to
    6. *)
Lemma discount_chosen_among_seven_witness :
  w_writable (recording_world sample_tape) "out.csv" = true
  ∧ ∃ r, data_rows "out.csv"
           (generate_large_csv "out.csv" 20 (recording_world sample_tape)).2 !! 0%nat
         = Some r
         ∧ field "discount_applied" r = Some (Num (PyNum.Float 0.1))
         ∧ (w_rng (generate_large_csv "out.csv" 20 (recording_world sample_tape)).2).2
             !! 7%nat = Some (7, 3)
         ∧ ∃ d k,
             (w_rng (generate_large_csv "out.csv" 20 (recording_world sample_tape)).2).2
               !! (List.length (w_rng (recording_world sample_tape)).2 + (13 * 0 + 7))%nat
             = Some (7, k)
             ∧ 0 ≤ k < 7
             ∧ field "discount_applied" r = Some (Num d)
             ∧ discount_choices !! Z.to_nat k = Some d
             ∧ (no_discount d = true ↔ k < 3).
Proof.
  split; [reflexivity|].
  eexists. split; [vm_compute; reflexivity|].
  do 2 (split; [vm_compute; reflexivity|]).
  refine (proj1 (discount_chosen_among_seven "out.csv" 20 (recording_world sample_tape)
                   0 _ eq_refl _)).
  vm_compute. reflexivity.
Defined.

(* ================================================================= *)
(** ** The remaining values of a row *)

Lemma returns_and {G A} (m : M G A) (P Q : A → Prop) :
  returns m P → returns m Q → returns m (λ a, P a ∧ Q a).
Proof.
  intros HP HQ w.
  destruct (HP w) as (a & g & E & Pa).
  destruct (HQ w) as (a' & g' & E' & Qa).
  rewrite E in E'. injection E' as <- _.
  exists a, g. auto.
Qed.

Section Shape.
Context {G : Type} `{RandomSource G}.

Lemma returns_choice_elem {A} (seq : list A) :
  seq ≠ [] → returns (choice seq) (λ x, x ∈ seq).
Proof.
  intros Hne w.
  destruct (returns_choice seq Hne w) as (x & g & E & k & _ & Hx).
  exists x, g. split; [exact E|].
  by apply list_elem_of_lookup_2 in Hx.
Qed.

(** One iteration always builds the remaining values within their
    lists and ranges. *)
Lemma gen_row_returns_shape (i : Z) : returns (gen_row i) txn_shape.
Proof.
  unfold gen_row. cbv zeta.
  eapply returns_bind; [apply returns_randint; lia | intros days Hdays].
  eapply returns_bind; [apply returns_randint; lia | intros hours Hhours].
  eapply returns_bind; [apply returns_randint; lia | intros minutes Hminutes].
  eapply returns_bind; [apply returns_randint; lia | intros c Hc].
  eapply returns_bind; [apply returns_randint; lia | intros p Hp].
  eapply returns_bind; [apply returns_choice_elem; done | intros cat Hcat].
  eapply returns_bind; [apply returns_randint; lia | intros q _].
  eapply returns_bind; [apply (returns_draw _ (λ _, True)); done | intros u _].
  eapply returns_bind; [apply returns_choice_elem; done | intros d _].
  eapply returns_bind; [apply returns_choice_elem; done | intros pm Hpm].
  eapply returns_bind; [apply returns_choice_elem; done | intros loc Hloc].
  eapply returns_bind; [apply returns_randint; lia | intros age _].
  eapply returns_bind; [apply returns_choice_elem; done | intros seg Hseg].
  eapply returns_bind; [apply (returns_draw _ (λ _, True)); done | intros present _].
  eapply returns_bind.
  { apply (returns_if _ _ _
             (λ r, r = Str EmptyString
                   ∨ ∃ v, rating_in_range v = true
                          ∧ r = Num (PyNum.round (PyNum.Float v) 1))).
    - eapply returns_bind.
      + apply (returns_draw _ (λ v, rating_in_range v = true)).
        intros g. apply uniform_range. reflexivity.
      + intros v Hv. apply returns_ret. right. exists v. auto.
    - apply returns_ret. by left. }
  intros rating Hrating.
  eapply returns_bind; [apply returns_choice_elem; done | intros ret Hret].
  apply returns_ret.
  cbv beta in Hdays, Hhours, Hminutes, Hc, Hp, Hcat, Hpm, Hloc, Hseg, Hrating, Hret.
  split; cbn [Txn.timestamp Txn.customer_id Txn.product_id Txn.category
              Txn.payment_method Txn.store_location Txn.customer_segment
              Txn.returned Txn.rating]; eauto 10.
Qed.

Lemma gen_row_returns_all (i : Z) :
  returns (gen_row i) (λ x, txn_ok i x ∧ txn_shape x).
Proof. apply returns_and; [apply gen_row_returns | apply gen_row_returns_shape]. Qed.

(** The rows a loop leaves in the file come from its iterations in order,
    whether it runs to its end or fails. *)
Lemma for_from_rows filename num_rows interval :
  ∀ n i (w : world G),
  ∃ xs r g out,
    for_from n i (loop_body filename num_rows interval) w =
      (r, mk_world g (append_rows filename (row_of <$> xs) (w_fs w)) (w_writable w) out)
    ∧ Forall2 (λ j x, txn_ok j x ∧ txn_shape x) (seqZ i (Z.of_nat (List.length xs))) xs.
Proof.
  intros n. induction n as [|n IH]; intros i w.
  - exists [], (Ok ()), (w_rng w), (w_stdout w). split; [|constructor].
    destruct w as [g0 fs wr out]. cbn. by rewrite append_rows_nil.
  - destruct (gen_row_returns_all i w) as (x & g & E & Hx).
    destruct (Z.eq_dec interval 0) as [->|Hiv].
    + exists [x], (Raise ZeroDivisionError), g, (w_stdout w). split.
      * cbn [for_from]. erewrite bind_raise; [reflexivity|].
        unfold loop_body. rewrite (bind_ok _ _ _ _ _ E).
        destruct w as [g0 fs wr out]. reflexivity.
      * change (seqZ i (Z.of_nat (List.length [x]))) with (cons (0 + i) nil).
        rewrite Z.add_0_l. constructor; [exact Hx | constructor].
    + set (out1 := w_stdout w ++ progress_events num_rows interval (i + 1) 1).
      assert (E1 : loop_body filename num_rows interval i w =
                   (Ok (), mk_world g (append_rows filename [row_of x] (w_fs w))
                             (w_writable w) out1)).
      { unfold loop_body. rewrite (bind_ok _ _ _ _ _ E).
        unfold py_mod. destruct (Z.eqb_spec interval 0) as [|_]; [done|].
        unfold out1.
        rewrite progress_events_cons, progress_events_nil, app_nil_r.
        destruct w as [g0 fs wr out].
        unfold mbind, M_bind, mret, M_ret, writerow, print, flush. cbn.
        destruct ((i + 1) `mod` interval =? 0); cbn.
        - by rewrite <- app_assoc.
        - by rewrite app_nil_r. }
      destruct (IH (i + 1) (mk_world g (append_rows filename [row_of x] (w_fs w))
                              (w_writable w) out1))
        as (xs & r & g2 & out2 & E2 & Hxs).
      exists (x :: xs), r, g2, out2. split.
      * cbn [for_from]. rewrite (bind_ok _ _ _ _ _ E1). rewrite E2.
        cbn [w_fs w_writable]. by rewrite append_rows_app.
      * cbn [List.length]. rewrite seqZ_cons by lia.
        replace (Z.pred (Z.of_nat (S (List.length xs)))) with (Z.of_nat (List.length xs))
          by lia.
        constructor; assumption.
Qed.

(** A run on a writable path, however it ends: the file holds the header
    and the rows of the iterations that reached [writerow]. *)
Lemma generate_world filename num_rows (w : world G) :
  w_writable w filename = true →
  ∃ xs r g out,
    generate_large_csv filename num_rows w =
      (r, mk_world g (append_rows filename (row_of <$> xs) (opened filename (w_fs w)))
            (w_writable w) out)
    ∧ Forall2 (λ j x, txn_ok j x ∧ txn_shape x) (seqZ 0 (Z.of_nat (List.length xs))) xs.
Proof.
  intros Hwr. destruct w as [g fs wr out]. cbn in Hwr.
  rewrite generate_prelude by exact Hwr. unfold for_range.
  destruct (for_from_rows filename num_rows (num_rows `div` 20) (Z.to_nat num_rows) 0
              (mk_world g (opened filename fs) wr (out ++ [banner num_rows])))
    as (xs & r & g1 & out1 & E & Hxs).
  cbn [w_fs w_writable] in E |- *.
  destruct r as [[]|e].
  - exists xs, (Ok ()), g1, (out1 ++ report_events filename num_rows).
    split; [|exact Hxs].
    rewrite (bind_ok _ _ _ _ _ E). apply report_ok.
  - exists xs, (Raise e), g1, out1. split; [|exact Hxs].
    apply (bind_raise _ _ _ _ _ E).
Qed.

(** The file after a run on a writable path, with everything an iteration
    guarantees about each row. *)
Lemma generate_rows filename num_rows (w : world G) :
  w_writable w filename = true →
  ∃ xs,
    file_rows filename (generate_large_csv filename num_rows w).2
      = (Str <$> headers) :: (row_of <$> xs)
    ∧ Forall2 (λ j x, txn_ok j x ∧ txn_shape x) (seqZ 0 (Z.of_nat (List.length xs))) xs.
Proof.
  intros Hwr.
  destruct (generate_world filename num_rows w Hwr) as (xs & r & g & out & E & Hxs).
  exists xs. split; [|exact Hxs].
  rewrite E. apply file_rows_opened.
Qed.

Lemma data_row_shape filename num_rows (w : world G) (i : nat) (r : row) :
  w_writable w filename = true →
  data_rows filename (generate_large_csv filename num_rows w).2 !! i = Some r →
  ∃ x, r = row_of x ∧ txn_ok (Z.of_nat i) x ∧ txn_shape x.
Proof.
  intros Hwr Hr.
  destruct (generate_rows filename num_rows w Hwr) as (xs & Hfile & Hxs).
  unfold data_rows in Hr. rewrite Hfile in Hr. cbn [tail] in Hr.
  apply list_lookup_fmap_Some in Hr as (x & -> & Hx).
  exists x. split; [reflexivity|].
  destruct (Forall2_lookup_r _ _ _ _ _ Hxs Hx) as (j & Hj & Hok).
  apply lookup_seqZ in Hj as [-> _]. exact Hok.
Qed.

End Shape.
(* ================================================================= *)
(** ** Fixed-width numbers *)

Lemma length_append (s t : string) :
  String.length (s +:+ t) = (String.length s + String.length t)%nat.
Proof.
  induction s as [|a s IH]; [reflexivity|].
  rewrite append_cons. cbn [String.length]. by rewrite IH.
Qed.

Lemma length_zeros (k : nat) : String.length (Fmt.zeros k) = k.
Proof. induction k as [|k IH]; cbn; congruence. Qed.

(** A number from 0 up to [10 ^ width] (excluded) is written by the format
    [0{width}d] with exactly [width] characters. *)
Lemma d0_length (width : nat) (z : Z) :
  (1 ≤ width)%nat → 0 ≤ z < 10 ^ Z.of_nat width →
  String.length (Fmt.d0 width z) = width.
Proof.
  intros Hw Hz. unfold Fmt.d0.
  destruct (Z.ltb_spec z 0) as [|_]; [lia|].
  unfold Fmt.zfill. rewrite length_append, length_zeros.
  assert (Hlen : (String.length (Fmt.digits (Z.abs_N z)) ≤ width)%nat); [|lia].
  destruct (Z.abs_N z) as [|p] eqn:Ez; [cbn; lia|].
  unfold Fmt.digits, NilZero.string_of_uint.
  change (N.to_uint (N.pos p)) with (Pos.to_uint p).
  pose proof (digits_length p width) as Hd.
  destruct (Pos.to_uint p) eqn:E;
    [by destruct (DecimalPos.Unsigned.to_uint_nonnil p)|..];
    rewrite string_of_uint_length; apply Hd;
    (assert (Hpow : Z.of_N (10 ^ N.of_nat width) = 10 ^ Z.of_nat width)
       by (rewrite N2Z.inj_pow, nat_N_Z; reflexivity); lia).
Qed.

(** The digits of the format [0{width}d] denote the number, whatever the
    width. *)
Lemma d0_read (width : nat) (z : Z) :
  0 ≤ z →
  N.of_uint <$> NilEmpty.uint_of_string (Fmt.d0 width z) = Some (Z.to_N z).
Proof.
  intros Hz. unfold Fmt.d0.
  destruct (Z.ltb_spec z 0) as [|_]; [lia|].
  rewrite read_zfill. f_equal. lia.
Qed.

(* ================================================================= *)
(** ** Timestamps *)





(* ================================================================= *)
(** ** Prices in cents, ratings in tenths *)

(** [round(u, 2)] of a float within the price bounds is the float nearest
    to a whole number of cents, from 599 to 99999. *)
Lemma round_price_cents (u : float) :
  price_in_range u = true →
  ∃ k, 599 ≤ k ≤ 99999 ∧ PyNum.round_float u 2 = PyNum.div_int k 100.
Proof.
  intros Hu.
  destruct (price_in_range_finite u Hu) as (m & e & Hsf & He & Hm & Hlo & Hhi).
  unfold PyNum.round_float. rewrite Hsf.
  destruct (Z.leb_spec 0 e) as [|_]; [lia|].
  change (10 ^ 2) with 100.
  exists (PyNum.scaled_round m e 100). split; [|reflexivity].
  unfold PyNum.scaled_round.
  destruct (Z.leb_spec 0 e) as [|_]; [lia|].
  pose proof (round_half_even_near (Z.pos m * 100) (2 ^ (- e))
                ltac:(apply Z.pow_pos_nonneg; lia)) as Hnear.
  set (n := PyNum.round_half_even (Z.pos m * 100) (2 ^ (- e))) in *.
  assert (Hcases : e = -50 ∨ e = -49 ∨ e = -48 ∨ e = -47
                   ∨ e = -46 ∨ e = -45 ∨ e = -44 ∨ e = -43) by lia.
  change (2 ^ 52) with 4503599627370496 in Hm.
  change (2 ^ 53) with 9007199254740992 in Hm.
  destruct Hcases as [->|[->|[->|[->|[->|[->|[->| ->]]]]]]];
    cbn [Z.opp] in Hnear;
    match type of Hnear with
    | context [2 ^ ?k] =>
        let v := eval vm_compute in (2 ^ k) in change (2 ^ k) with v in Hnear
    end;
    lia.
Qed.

(** A float between 1 and 5 is a positive finite number whose mantissa and
    exponent lie between theirs. *)
Lemma rating_in_range_finite (u : float) :
  rating_in_range u = true →
  ∃ m e, Prim2SF u = S754_finite false m e
         ∧ -52 ≤ e ≤ -50
         ∧ 2 ^ 52 ≤ Z.pos m < 2 ^ 53
         ∧ (e = -50 → Z.pos m ≤ 5629499534213120).
Proof.
  unfold rating_in_range. intros [Hlo Hhi]%andb_prop.
  rewrite leb_spec in Hlo, Hhi.
  pose proof (Prim2SF_valid u) as Hvalid.
  change (Prim2SF 1) with (S754_finite false 4503599627370496 (-52)) in Hlo.
  change (Prim2SF 5) with (S754_finite false 5629499534213120 (-50)) in Hhi.
  destruct (Prim2SF u) as [s|s| |s m e]; try discriminate.
  - destruct s; discriminate.
  - destruct s; [discriminate|].
    unfold SFleb, SFcompare in Hlo, Hhi.
    rewrite Pos.compare_cont_spec in Hlo, Hhi. cbn [Pos.switch_Eq] in Hlo, Hhi.
    rewrite Pos2Z.inj_compare in Hlo, Hhi.
    assert (Hlo' : -52 ≤ e).
    { destruct (Z.compare_spec (-52) e) as [Heq|Hlt|Hgt]; [lia|lia|discriminate]. }
    assert (Hhi' : e < -50 ∨ (e = -50 ∧ Z.pos m ≤ 5629499534213120)).
    { destruct (Z.compare_spec e (-50)) as [Heq|Hlt|Hgt]; [|lia|discriminate].
      right. split; [lia|].
      destruct (Z.compare_spec (Z.pos m) 5629499534213120); try discriminate; lia. }
    cbn [valid_binary] in Hvalid. unfold bounded, canonical_mantissa in Hvalid.
    apply andb_prop in Hvalid as [Hcanon _].
    apply Z.eqb_eq in Hcanon. unfold fexp, SpecFloat.emin, prec, emax in Hcanon.
    assert (Hdigits : Z.pos (digits2_pos m) = 53) by lia.
    pose proof (digits2_pos_bounds m) as Hm. rewrite Hdigits in Hm.
    exists m, e. split; [reflexivity|].
    split; [lia|]. split; [exact Hm|]. lia.
Qed.

Lemma tenths_in_range_spec (count : nat) :
  ∀ first, tenths_in_range first count = true →
  ∀ n, first ≤ n < first + Z.of_nat count →
  rating_in_range (PyNum.div_int n 10) = true.
Proof.
  induction count as [|count IH]; intros first Hall n Hn; [lia|].
  cbn [tenths_in_range] in Hall. apply andb_prop in Hall as [Hfirst Hrest].
  destruct (decide (n = first)) as [->|Hne]; [exact Hfirst|].
  apply (IH (first + 1) Hrest). lia.
Qed.

Lemma tenths_10_to_50 : tenths_in_range 10 41 = true.
Proof. vm_compute. reflexivity. Qed.

(** [round(u, 1)] of a float from 1 to 5 is the float nearest to a whole
    number of tenths, from 10 to 50, and lies from 1 to 5. *)
Lemma round_rating_tenths (u : float) :
  rating_in_range u = true →
  ∃ k, 10 ≤ k ≤ 50
       ∧ PyNum.round_float u 1 = PyNum.div_int k 10
       ∧ rating_in_range (PyNum.div_int k 10) = true.
Proof.
  intros Hu.
  destruct (rating_in_range_finite u Hu) as (m & e & Hsf & He & Hm & Hhi).
  unfold PyNum.round_float. rewrite Hsf.
  destruct (Z.leb_spec 0 e) as [|_]; [lia|].
  change (10 ^ 1) with 10.
  assert (Hk : 10 ≤ PyNum.scaled_round m e 10 ≤ 50).
  { unfold PyNum.scaled_round.
    destruct (Z.leb_spec 0 e) as [|_]; [lia|].
    pose proof (round_half_even_near (Z.pos m * 10) (2 ^ (- e))
                  ltac:(apply Z.pow_pos_nonneg; lia)) as Hnear.
    set (n := PyNum.round_half_even (Z.pos m * 10) (2 ^ (- e))) in *.
    assert (Hcases : e = -52 ∨ e = -51 ∨ e = -50) by lia.
    change (2 ^ 52) with 4503599627370496 in Hm.
    change (2 ^ 53) with 9007199254740992 in Hm.
    destruct Hcases as [->|[->| ->]];
      cbn [Z.opp] in Hnear;
      match type of Hnear with
      | context [2 ^ ?k] =>
          let v := eval vm_compute in (2 ^ k) in change (2 ^ k) with v in Hnear
      end;
      lia. }
  exists (PyNum.scaled_round m e 10).
  split; [exact Hk|]. split; [reflexivity|].
  apply (tenths_in_range_spec _ 10 tenths_10_to_50). lia.
Qed.

(* ================================================================= *)
(** ** Counting progress lines *)

Lemma is_progress_line (c num_rows : Z) :
  is_progress (Line (progress_line c num_rows)) = true.
Proof.
  unfold is_progress, progress_line. cbv zeta. rewrite !append_cons.
  cbn [String.prefix].
  repeat (destruct (ascii_dec _ _) as [_|Hne]; [|done]).
  match goal with |- String.prefix EmptyString ?s = true => by destruct s end.
Qed.

(** The quotient by the interval goes up by one at each multiple of the
    interval, and only there. *)
Lemma div_step (iv c : Z) :
  0 < iv →
  c `div` iv = (c - 1) `div` iv + (if c `mod` iv =? 0 then 1 else 0).
Proof.
  intros Hiv.
  pose proof (Z.div_mod c iv ltac:(lia)) as Hc.
  pose proof (Z.mod_pos_bound c iv Hiv) as Hr.
  destruct (Z.eqb_spec (c `mod` iv) 0) as [Hz|Hnz].
  - assert (Hprev : (c - 1) `div` iv = c `div` iv - 1); [|lia].
    symmetry. apply (Z.div_unique (c - 1) iv (c `div` iv - 1) (iv - 1)); lia.
  - assert (Hprev : (c - 1) `div` iv = c `div` iv); [|lia].
    symmetry. apply (Z.div_unique (c - 1) iv (c `div` iv) (c `mod` iv - 1)); lia.
Qed.

Lemma count_progress_events (num_rows iv : Z) :
  0 < iv →
  ∀ count first,
    Z.of_nat (List.length (List.filter is_progress
                             (progress_events num_rows iv first count)))
    = (first - 1 + Z.of_nat count) `div` iv - (first - 1) `div` iv.
Proof.
  intros Hiv count. induction count as [|count IH]; intros first.
  - rewrite progress_events_nil. cbn [List.filter List.length Z.of_nat].
    rewrite Z.add_0_r. lia.
  - rewrite progress_events_cons, List.filter_app, List.length_app, Nat2Z.inj_add, IH.
    replace (first + 1 - 1 + Z.of_nat count) with (first - 1 + Z.of_nat (S count)) by lia.
    replace (first + 1 - 1) with first by lia.
    rewrite (div_step iv first Hiv).
    destruct (first `mod` iv =? 0).
    + cbn [List.filter]. rewrite is_progress_line. cbn [is_progress List.length]. lia.
    + cbn [List.filter List.length]. lia.
Qed.

(** A twentieth of at least 20 rows, rounded down, goes between 20 and 39
    times into the row count. *)
Lemma interval_count_bounds (num_rows : Z) :
  20 ≤ num_rows →
  0 < num_rows `div` 20 ∧ 20 ≤ num_rows `div` (num_rows `div` 20) ≤ 39.
Proof.
  intros Hn.
  pose proof (Z.div_mod num_rows 20 ltac:(lia)) as Hdm.
  pose proof (Z.mod_pos_bound num_rows 20 ltac:(lia)) as Hr.
  set (iv := num_rows `div` 20) in *.
  assert (Hiv : 0 < iv) by lia.
  split; [exact Hiv|]. split.
  - apply Z.div_le_lower_bound; lia.
  - assert (num_rows `div` iv < 40); [|lia].
    apply Z.div_lt_upper_bound; lia.
Qed.

(* ================================================================= *)
(** ** The ids of the rows written *)

Lemma ids_of_rows (js : list Z) (xs : list Txn.t) :
  Forall2 txn_ok js xs →
  field "transaction_id" <$> (row_of <$> xs)
  = (λ j, Some (Str (format_transaction_id j))) <$> js.
Proof.
  induction 1 as [|j x js xs Hx _ IH]; [reflexivity|].
  cbn [fmap list_fmap]. f_equal; [|exact IH].
  change (Some (Str (Txn.transaction_id x)) = Some (Str (format_transaction_id j))).
  by rewrite (ok_id _ _ Hx).
Qed.

(** What a run on a writable path returns, prints, and which ids it
    writes: all three are fixed by the row count. *)
Lemma generate_summary {G} `{RandomSource G} filename num_rows (w : world G) :
  w_writable w filename = true →
  (generate_large_csv filename num_rows w).1
    = (if (1 <=? num_rows) && (num_rows <=? 19) then Raise ZeroDivisionError else Ok ())
  ∧ w_stdout (generate_large_csv filename num_rows w).2
    = w_stdout w
      ++ banner num_rows
         :: (if num_rows <=? 0 then report_events filename num_rows
             else if num_rows <=? 19 then []
             else progress_events num_rows (num_rows `div` 20) 1 (Z.to_nat num_rows)
                  ++ report_events filename num_rows)
  ∧ field "transaction_id"
      <$> file_rows filename (generate_large_csv filename num_rows w).2
    = Some (Str "transaction_id")
      :: ((λ j, Some (Str (format_transaction_id j)))
            <$> seqZ 0 (Z.of_nat (rows_left num_rows))).
Proof.
  intros Hwr. unfold rows_left.
  destruct (Z.leb_spec num_rows 0) as [Hle|Hgt].
  - rewrite (generate_nonpositive _ _ _ Hwr Hle). cbn [fst snd w_stdout].
    destruct (Z.leb_spec 1 num_rows) as [|_]; [lia|]. cbn [andb].
    split; [reflexivity|]. split; [reflexivity|].
    rewrite <- (append_rows_nil filename (opened filename (w_fs w))).
    rewrite file_rows_opened. reflexivity.
  - destruct (Z.leb_spec 1 num_rows) as [_|]; [|lia]. cbn [andb].
    destruct (Z.leb_spec num_rows 19) as [Hs|Hl].
    + destruct (generate_below_twenty filename num_rows w Hwr ltac:(lia))
        as (x & g & E & Hx).
      rewrite E. cbn [fst snd w_stdout].
      split; [reflexivity|]. split; [reflexivity|].
      rewrite file_rows_opened, fmap_cons. f_equal.
      apply (ids_of_rows [0] [x]). constructor; [exact Hx | constructor].
    + destruct (generate_from_twenty filename num_rows w Hwr ltac:(lia))
        as (xs & g & E & Hxs).
      rewrite E. cbn [fst snd w_stdout].
      split; [reflexivity|]. split; [reflexivity|].
      rewrite file_rows_opened, fmap_cons. f_equal.
      rewrite Z2Nat.id by lia.
      apply (ids_of_rows _ _ Hxs).
Qed.

(* ================================================================= *)
(** ** Further properties of the rows *)

(** X1: on every run that can open its file, every row written, the header
    and each data row, has exactly 15 cells: the file is rectangular. *)
Theorem every_row_has_fifteen_cells {G} `{RandomSource G}
    (filename : string) (num_rows : Z) (w : world G) :
  w_writable w filename = true →
  Forall (λ r, List.length r = 15%nat)
         (file_rows filename (generate_large_csv filename num_rows w).2).
Proof.
  intros Hwr.
  destruct (generate_rows filename num_rows w Hwr) as (xs & Hfile & _).
  rewrite Hfile. constructor; [reflexivity|].
  apply Forall_fmap, Forall_forall. intros x _. reflexivity.
Qed.

Lemma every_row_has_fifteen_cells_witness :
  w_writable sample_world "out.csv" = true
  ∧ List.length (file_rows "out.csv" (generate_large_csv "out.csv" 20 sample_world).2)
    = 21%nat
  ∧ Forall (λ r, List.length r = 15%nat)
           (file_rows "out.csv" (generate_large_csv "out.csv" 20 sample_world).2).
Proof.
  split; [reflexivity|]. split; [vm_compute; reflexivity|].
  exact (every_row_has_fifteen_cells "out.csv" 20 sample_world eq_refl).
Defined.

(** X2: in every generated row, category, payment_method, store_location
    and customer_segment each hold one of the values of the list they are
    chosen from, and returned holds Yes or No. *)
Theorem chosen_columns_hold_listed_values {G} `{RandomSource G}
    (filename : string) (num_rows : Z) (w : world G) (i : nat) (r : row) :
  w_writable w filename = true →
  data_rows filename (generate_large_csv filename num_rows w).2 !! i = Some r →
  ∃ category payment_method store_location customer_segment returned,
    field "category" r = Some (Str category)
    ∧ category ∈ [ "Electronics"; "Clothing"; "Food"; "Home"; "Sports"; "Books";
                   "Toys"; "Beauty" ]
    ∧ field "payment_method" r = Some (Str payment_method)
    ∧ payment_method ∈ [ "Credit Card"; "Debit Card"; "Cash"; "Mobile Payment";
                         "Gift Card" ]
    ∧ field "store_location" r = Some (Str store_location)
    ∧ store_location ∈ [ "New York"; "Los Angeles"; "Chicago"; "Houston"; "Phoenix";
                         "Philadelphia" ]
    ∧ field "customer_segment" r = Some (Str customer_segment)
    ∧ customer_segment ∈ [ "Regular"; "Silver"; "Gold"; "Platinum" ]
    ∧ field "returned" r = Some (Str returned)
    ∧ (returned = "Yes" ∨ returned = "No").
Proof.
  intros Hwr Hr.
  destruct (data_row_shape filename num_rows w i r Hwr Hr) as (x & -> & _ & Hx).
  exists (Txn.category x), (Txn.payment_method x), (Txn.store_location x),
    (Txn.customer_segment x), (Txn.returned x).
  split; [reflexivity|]. split; [exact (shape_category _ Hx)|].
  split; [reflexivity|]. split; [exact (shape_payment _ Hx)|].
  split; [reflexivity|]. split; [exact (shape_location _ Hx)|].
  split; [reflexivity|]. split; [exact (shape_segment _ Hx)|].
  split; [reflexivity|].
  pose proof (shape_returned _ Hx) as Hret. unfold returned_choices in Hret.
  repeat (apply elem_of_cons in Hret as [->|Hret]; [auto|]).
  by apply elem_of_nil in Hret.
Qed.

Lemma chosen_columns_hold_listed_values_witness :
  ∃ r, data_rows "out.csv" (generate_large_csv "out.csv" 20 sample_world).2 !! 0%nat
       = Some r
       ∧ field "category" r = Some (Str "Food")
       ∧ field "returned" r = Some (Str "No")
       ∧ ∃ category payment_method store_location customer_segment returned,
           field "category" r = Some (Str category)
           ∧ category ∈ [ "Electronics"; "Clothing"; "Food"; "Home"; "Sports"; "Books";
                          "Toys"; "Beauty" ]
           ∧ field "payment_method" r = Some (Str payment_method)
           ∧ payment_method ∈ [ "Credit Card"; "Debit Card"; "Cash"; "Mobile Payment";
                                "Gift Card" ]
           ∧ field "store_location" r = Some (Str store_location)
           ∧ store_location ∈ [ "New York"; "Los Angeles"; "Chicago"; "Houston";
                                "Phoenix"; "Philadelphia" ]
           ∧ field "customer_segment" r = Some (Str customer_segment)
           ∧ customer_segment ∈ [ "Regular"; "Silver"; "Gold"; "Platinum" ]
           ∧ field "returned" r = Some (Str returned)
           ∧ (returned = "Yes" ∨ returned = "No").
Proof.
  eexists. split; [vm_compute; reflexivity|].
  do 2 (split; [vm_compute; reflexivity|]).
  refine (chosen_columns_hold_listed_values "out.csv" 20 sample_world 0 _ eq_refl _).
  vm_compute. reflexivity.
Defined.

(** X3: in every generated row, customer_id is CUST followed by exactly
    six decimal digits that denote a number from 1 to 50000, product_id is
    PROD followed by exactly five digits that denote a number from 1 to
    5000, and, as long as the row number stays below 10^8, transaction_id
    is TXN followed by exactly eight decimal digits that denote the row
    number. *)
Theorem ids_have_fixed_width {G} `{RandomSource G}
    (filename : string) (num_rows : Z) (w : world G) (i : nat) (r : row) :
  w_writable w filename = true →
  data_rows filename (generate_large_csv filename num_rows w).2 !! i = Some r →
  (∃ ds c, field "customer_id" r = Some (Str ("CUST" +:+ ds))
           ∧ String.length ds = 6%nat
           ∧ N.of_uint <$> NilEmpty.uint_of_string ds = Some c
           ∧ (1 ≤ c ≤ 50000)%N)
  ∧ (∃ ds p, field "product_id" r = Some (Str ("PROD" +:+ ds))
             ∧ String.length ds = 5%nat
             ∧ N.of_uint <$> NilEmpty.uint_of_string ds = Some p
             ∧ (1 ≤ p ≤ 5000)%N)
  ∧ (Z.of_nat i + 1 < 10 ^ 8 →
     ∃ ds, field "transaction_id" r = Some (Str ("TXN" +:+ ds))
           ∧ String.length ds = 8%nat
           ∧ N.of_uint <$> NilEmpty.uint_of_string ds = Some (N.of_nat i + 1)%N).
Proof.
  intros Hwr Hr.
  destruct (data_row_shape filename num_rows w i r Hwr Hr) as (x & -> & Hok & Hx).
  destruct (shape_customer _ Hx) as (c & Hc & Ec).
  destruct (shape_product _ Hx) as (p & Hp & Ep).
  split; [|split].
  - exists (Fmt.d0 6 c), (Z.to_N c).
    split; [cbn; by rewrite Ec|].
    split; [apply d0_length; [lia | cbn; lia]|].
    split; [apply d0_read; lia | lia].
  - exists (Fmt.d0 5 p), (Z.to_N p).
    split; [cbn; by rewrite Ep|].
    split; [apply d0_length; [lia | cbn; lia]|].
    split; [apply d0_read; lia | lia].
  - intros Hi. exists (Fmt.d0 8 (Z.of_nat i + 1)).
    split; [cbn; by rewrite (ok_id _ _ Hok)|].
    split; [apply d0_length; [lia | cbn; lia]|].
    rewrite d0_read by lia. f_equal. lia.
Qed.

Lemma ids_have_fixed_width_witness :
  ∃ r, data_rows "out.csv" (generate_large_csv "out.csv" 20 sample_world).2 !! 0%nat
       = Some r
       ∧ field "customer_id" r = Some (Str "CUST000009")
       ∧ field "product_id" r = Some (Str "PROD00010")
       ∧ (∃ ds c, field "customer_id" r = Some (Str ("CUST" +:+ ds))
                  ∧ String.length ds = 6%nat
                  ∧ N.of_uint <$> NilEmpty.uint_of_string ds = Some c
                  ∧ (1 ≤ c ≤ 50000)%N)
       ∧ (∃ ds p, field "product_id" r = Some (Str ("PROD" +:+ ds))
                  ∧ String.length ds = 5%nat
                  ∧ N.of_uint <$> NilEmpty.uint_of_string ds = Some p
                  ∧ (1 ≤ p ≤ 5000)%N)
       ∧ (∃ ds, field "transaction_id" r = Some (Str ("TXN" +:+ ds))
                ∧ String.length ds = 8%nat
                ∧ N.of_uint <$> NilEmpty.uint_of_string ds = Some (N.of_nat 0 + 1)%N).
Proof.
  eexists. split; [vm_compute; reflexivity|].
  do 2 (split; [vm_compute; reflexivity|]).
  refine (let H' := ids_have_fixed_width "out.csv" 20 sample_world 0 _ eq_refl _ in
          conj (proj1 H')
            (conj (proj1 (proj2 H')) (proj2 (proj2 H') ltac:(cbn; lia)))).
  vm_compute. reflexivity.
Defined.



(** X5: in every generated row, rating is either the empty string or a
    float from 1 to 5 that is the float nearest to a whole number of
    tenths (10 to 50 tenths). *)
Theorem rating_empty_or_one_to_five {G} `{RandomSource G}
    (filename : string) (num_rows : Z) (w : world G) (i : nat) (r : row) :
  w_writable w filename = true →
  data_rows filename (generate_large_csv filename num_rows w).2 !! i = Some r →
  field "rating" r = Some (Str EmptyString)
  ∨ ∃ k, 10 ≤ k ≤ 50
         ∧ field "rating" r = Some (Num (PyNum.Float (PyNum.div_int k 10)))
         ∧ (1 <=? PyNum.div_int k 10)%float && (PyNum.div_int k 10 <=? 5)%float = true.
Proof.
  intros Hwr Hr.
  destruct (data_row_shape filename num_rows w i r Hwr Hr) as (x & -> & _ & Hx).
  destruct (shape_rating _ Hx) as [E|(u & Hu & E)].
  - left. cbn. by rewrite E.
  - right. destruct (round_rating_tenths u Hu) as (k & Hk & Ek & Hin).
    exists k. split; [exact Hk|].
    split; [cbn; rewrite E; cbn; by rewrite Ek | exact Hin].
Qed.

Lemma rating_empty_or_one_to_five_witness :
  ∃ r, data_rows "out.csv" (generate_large_csv "out.csv" 20 sample_world).2 !! 0%nat
       = Some r
       ∧ field "rating" r = Some (Num (PyNum.Float 2))
       ∧ (field "rating" r = Some (Str EmptyString)
          ∨ ∃ k, 10 ≤ k ≤ 50
                 ∧ field "rating" r = Some (Num (PyNum.Float (PyNum.div_int k 10)))
                 ∧ (1 <=? PyNum.div_int k 10)%float
                   && (PyNum.div_int k 10 <=? 5)%float = true).
Proof.
  eexists. split; [vm_compute; reflexivity|].
  split; [vm_compute; reflexivity|].
  refine (rating_empty_or_one_to_five "out.csv" 20 sample_world 0 _ eq_refl _).
  vm_compute. reflexivity.
Defined.

(** X6: in every generated row, unit_price is the float nearest to a whole
    number of cents, from 599 to 99999 cents: it never carries more than
    two decimals. *)
Theorem unit_price_is_whole_cents {G} `{RandomSource G}
    (filename : string) (num_rows : Z) (w : world G) (i : nat) (r : row) :
  w_writable w filename = true →
  data_rows filename (generate_large_csv filename num_rows w).2 !! i = Some r →
  ∃ cents, 599 ≤ cents ≤ 99999
           ∧ field "unit_price" r = Some (Num (PyNum.Float (PyNum.div_int cents 100))).
Proof.
  intros Hwr Hr.
  destruct (data_row_shape filename num_rows w i r Hwr Hr) as (x & -> & Hok & _).
  destruct (ok_price _ _ Hok) as (u & Hu & E).
  destruct (round_price_cents u Hu) as (k & Hk & Ek).
  exists k. split; [exact Hk|].
  cbn. rewrite E. cbn. by rewrite Ek.
Qed.

Lemma unit_price_is_whole_cents_witness :
  ∃ r, data_rows "out.csv" (generate_large_csv "out.csv" 20 sample_world).2 !! 0%nat
       = Some r
       ∧ field "unit_price" r = Some (Num (PyNum.Float (PyNum.div_int 50299 100)))
       ∧ ∃ cents, 599 ≤ cents ≤ 99999
                  ∧ field "unit_price" r
                    = Some (Num (PyNum.Float (PyNum.div_int cents 100))).
Proof.
  eexists. split; [vm_compute; reflexivity|].
  split; [vm_compute; reflexivity|].
  refine (unit_price_is_whole_cents "out.csv" 20 sample_world 0 _ eq_refl _).
  vm_compute. reflexivity.
Defined.

(* ================================================================= *)
(** ** Further properties of a run *)

(** X8: when the path cannot be opened for writing, the run ends with the
    exception that [open] raises, right after its first line: only that
    line is printed, no file is created or changed, and no random number
    is drawn. *)
Theorem failed_open_ends_the_run {G} `{RandomSource G}
    (filename : string) (num_rows : Z) (w : world G) :
  w_writable w filename = false →
  (∃ e, (open_w filename w).1 = Raise e
        ∧ (generate_large_csv filename num_rows w).1 = Raise e)
  ∧ w_stdout (generate_large_csv filename num_rows w).2
    = w_stdout w ++ [Line ("Generating " +:+ Fmt.comma num_rows +:+ " rows of data...")]
  ∧ w_fs (generate_large_csv filename num_rows w).2 = w_fs w
  ∧ w_rng (generate_large_csv filename num_rows w).2 = w_rng w.
Proof.
  intros Hwr. rewrite (generate_unwritable filename num_rows w Hwr).
  split; [|by destruct w].
  exists OSError. unfold open_w. by rewrite Hwr.
Qed.

Lemma failed_open_ends_the_run_witness :
  w_writable (mk_world sample_tape ∅ (λ _, false) []) "out.csv" = false
  ∧ (∃ e, (open_w "out.csv" (mk_world sample_tape ∅ (λ _, false) [])).1 = Raise e
          ∧ (generate_large_csv "out.csv" 1000
               (mk_world sample_tape ∅ (λ _, false) [])).1 = Raise e)
  ∧ w_stdout (generate_large_csv "out.csv" 1000
                (mk_world sample_tape ∅ (λ _, false) [])).2
    = [Line "Generating 1,000 rows of data..."]
  ∧ w_fs (generate_large_csv "out.csv" 1000
            (mk_world sample_tape ∅ (λ _, false) [])).2 = ∅
  ∧ w_rng (generate_large_csv "out.csv" 1000
             (mk_world sample_tape ∅ (λ _, false) [])).2 = sample_tape.
Proof.
  split; [reflexivity|].
  exact (failed_open_ends_the_run "out.csv" 1000
           (mk_world sample_tape ∅ (λ _, false) []) eq_refl).
Defined.

(** A run of at least 20 rows meets neither a division by zero nor an
    index out of range. *)
Lemma generate_outcome {G} `{RandomSource G} filename num_rows (w : world G) :
  20 ≤ num_rows →
  (generate_large_csv filename num_rows w).1 ≠ Raise ZeroDivisionError
  ∧ (generate_large_csv filename num_rows w).1 ≠ Raise IndexError.
Proof.
  intros Hn. destruct (w_writable w filename) eqn:Hwr.
  - destruct (generate_from_twenty filename num_rows w Hwr Hn) as (xs & g & E & _).
    by rewrite E.
  - by rewrite (generate_unwritable filename num_rows w Hwr).
Qed.

(** A run of at least 20 rows on a writable path completes and leaves the
    header and that many rows. *)
Lemma generate_from_twenty_rows {G} `{RandomSource G} filename num_rows (w : world G) :
  w_writable w filename = true →
  20 ≤ num_rows →
  (generate_large_csv filename num_rows w).1 = Ok ()
  ∧ ∃ xs, file_rows filename (generate_large_csv filename num_rows w).2
          = (Str <$> headers) :: (row_of <$> xs)
          ∧ List.length xs = Z.to_nat num_rows.
Proof.
  intros Hwr Hn.
  destruct (generate_from_twenty filename num_rows w Hwr Hn) as (xs & g & E & Hxs).
  rewrite E. cbn [fst snd]. split; [reflexivity|].
  exists xs. split; [apply file_rows_opened|].
  pose proof (Forall2_length _ _ _ Hxs) as Hlen.
  rewrite length_seqZ in Hlen. lia.
Qed.

(** X9: each of the selectors small, medium, large and xlarge, given in any
    letter case as the first argument, and medium when no argument is
    given, makes the program complete on a writable path and leave, at the
    path of that preset, the header followed by exactly the preset's
    number of rows (10,000, 100,000, 1,000,000 and 5,000,000). *)
Theorem preset_selector_writes_its_file {G} `{RandomSource G}
    (argv : list string) (sel path : string) (n : Z) (w : world G) :
  (sel, (path, n)) ∈ presets →
  default "medium" (lower <$> argv !! 1%nat) = sel →
  w_writable w path = true →
  (main argv w).1 = Ok ()
  ∧ ∃ xs, file_rows path (main argv w).2 = (Str <$> headers) :: (row_of <$> xs)
          ∧ List.length xs = Z.to_nat n.
Proof.
  intros Hin Hsel Hwr. unfold presets in Hin.
  assert (Hmain : main argv = generate_large_csv path n ∧ 20 ≤ n).
  { destruct argv as [|prog [|arg rest]]; cbn in Hsel; subst sel;
      unfold main; cbv beta iota zeta;
      repeat (apply elem_of_cons in Hin as [Hin|Hin];
              [simplify_eq;
               repeat match goal with E : lower _ = _ |- _ => rewrite !E; clear E end;
               (split; [reflexivity | lia])|]);
      by apply elem_of_nil in Hin. }
  destruct Hmain as [-> Hn].
  by apply generate_from_twenty_rows.
Qed.

Lemma preset_selector_writes_its_file_witness :
  default "medium" (lower <$> [ "generate-large-csv.py"; "XLarge" ] !! 1%nat) = "xlarge"
  ∧ w_writable sample_world "test-datasets/large/transactions-xlarge.csv" = true
  ∧ (main [ "generate-large-csv.py"; "XLarge" ] sample_world).1 = Ok ()
  ∧ ∃ xs, file_rows "test-datasets/large/transactions-xlarge.csv"
            (main [ "generate-large-csv.py"; "XLarge" ] sample_world).2
          = (Str <$> headers) :: (row_of <$> xs)
          ∧ List.length xs = Z.to_nat 5000000.
Proof.
  split; [reflexivity|]. split; [reflexivity|].
  refine (preset_selector_writes_its_file
            [ "generate-large-csv.py"; "XLarge" ] "xlarge"
            "test-datasets/large/transactions-xlarge.csv" 5000000 sample_world
            _ eq_refl eq_refl).
  do 3 apply list_elem_of_further. apply list_elem_of_here.
Defined.

(** X10: whatever its arguments, the program never ends with the division
    by zero that the generator meets for 1 to 19 rows, nor with an index
    out of range: every preset asks for at least 20 rows, the argument is
    read only when there is one, and every list chosen from has
    elements. *)
Theorem main_never_divides_by_zero {G} `{RandomSource G}
    (argv : list string) (w : world G) :
  (main argv w).1 ≠ Raise ZeroDivisionError
  ∧ (main argv w).1 ≠ Raise IndexError.
Proof.
  destruct argv as [|prog [|arg rest]]; unfold main;
    try (apply generate_outcome; lia).
  repeat (destruct (String.eqb _ _); [apply generate_outcome; lia|]).
  done.
Qed.

(** X11: a run of at least 20 rows prints as many progress lines as the
    interval row_count // 20 goes into the row count: at least 20 and at
    most 39, not always 20. *)
Theorem progress_lines_between_20_and_39 {G} `{RandomSource G}
    (filename : string) (num_rows : Z) (w : world G) :
  w_writable w filename = true →
  20 ≤ num_rows →
  Z.of_nat (List.length (List.filter is_progress
                           (w_stdout (generate_large_csv filename num_rows w).2)))
  = Z.of_nat (List.length (List.filter is_progress (w_stdout w)))
    + num_rows `div` (num_rows `div` 20)
  ∧ 20 ≤ num_rows `div` (num_rows `div` 20) ≤ 39.
Proof.
  intros Hwr Hn.
  destruct (interval_count_bounds num_rows Hn) as [Hiv Hbounds].
  split; [|exact Hbounds].
  destruct (generate_from_twenty filename num_rows w Hwr Hn) as (xs & g & E & _).
  rewrite E. cbn [snd w_stdout].
  rewrite List.filter_app, List.length_app, Nat2Z.inj_add. f_equal.
  change (banner num_rows :: ?l) with ([banner num_rows] ++ l).
  rewrite !List.filter_app, !List.length_app, !Nat2Z.inj_add.
  rewrite (count_progress_events num_rows _ Hiv).
  assert (Hbanner : List.filter is_progress [banner num_rows] = []).
  { unfold banner. rewrite append_cons. reflexivity. }
  assert (Hreport : List.filter is_progress (report_events filename num_rows) = []).
  { unfold report_events, newline. rewrite !append_cons. reflexivity. }
  rewrite Hbanner, Hreport. cbn [List.length Z.of_nat].
  rewrite Z2Nat.id by lia.
  replace (1 - 1 + num_rows) with num_rows by lia.
  change (1 - 1) with 0. rewrite Z.div_0_l by lia. lia.
Qed.

Lemma progress_lines_between_20_and_39_witness :
  w_writable sample_world "out.csv" = true
  ∧ 20 ≤ 39
  ∧ Z.of_nat (List.length
                (List.filter is_progress
                   (w_stdout (generate_large_csv "out.csv" 39 sample_world).2)))
    = 0 + 39.
Proof.
  split; [reflexivity|]. split; [lia|].
  exact (proj1 (progress_lines_between_20_and_39 "out.csv" 39 sample_world
                  eq_refl ltac:(lia))).
Defined.

(** X12: what the random source draws changes neither how a run on a
    writable path ends, nor any line it prints other than the line of the
    file size, nor how many rows it writes and under which transaction
    ids: two runs with the same path and row count agree on all of these,
    whatever their random sources. *)
Theorem run_outline_independent_of_draws {G1 G2 : Type}
    `{RandomSource G1} `{RandomSource G2}
    (filename : string) (num_rows : Z) (w1 : world G1) (w2 : world G2) :
  w_writable w1 filename = true →
  w_writable w2 filename = true →
  w_stdout w1 = w_stdout w2 →
  (generate_large_csv filename num_rows w1).1
    = (generate_large_csv filename num_rows w2).1
  ∧ List.filter (λ ev, negb (is_file_size ev))
      (w_stdout (generate_large_csv filename num_rows w1).2)
    = List.filter (λ ev, negb (is_file_size ev))
        (w_stdout (generate_large_csv filename num_rows w2).2)
  ∧ field "transaction_id"
      <$> file_rows filename (generate_large_csv filename num_rows w1).2
    = field "transaction_id"
        <$> file_rows filename (generate_large_csv filename num_rows w2).2.
Proof.
  intros Hwr1 Hwr2 Hout.
  destruct (generate_summary filename num_rows w1 Hwr1) as (E1 & O1 & I1).
  destruct (generate_summary filename num_rows w2 Hwr2) as (E2 & O2 & I2).
  rewrite E1, E2, O1, O2, I1, I2, Hout. done.
Qed.

Lemma run_outline_independent_of_draws_witness :
  w_rng sample_world ≠ w_rng (tape_world [])
  ∧ (generate_large_csv "out.csv" 20 sample_world).1
    = (generate_large_csv "out.csv" 20 (tape_world [])).1
  ∧ List.filter (λ ev, negb (is_file_size ev))
      (w_stdout (generate_large_csv "out.csv" 20 sample_world).2)
    = List.filter (λ ev, negb (is_file_size ev))
        (w_stdout (generate_large_csv "out.csv" 20 (tape_world [])).2)
  ∧ field "transaction_id"
      <$> file_rows "out.csv" (generate_large_csv "out.csv" 20 sample_world).2
    = field "transaction_id"
        <$> file_rows "out.csv" (generate_large_csv "out.csv" 20 (tape_world [])).2.
Proof.
  split; [discriminate|].
  exact (run_outline_independent_of_draws "out.csv" 20 sample_world (tape_world [])
           eq_refl eq_refl eq_refl).
Defined.
